(** * FrappeDB: the document client of frappe-js-sdk (src/db/index.ts)

    The class [FrappeDB] turns method calls into requests on an axios
    instance and maps the settled request to a result or to a thrown error
    object.  The development below embeds

    - the JavaScript values the client handles (JSON data and [undefined])
      with the language operations the source applies to them: property
      reads, object spread, template-literal conversion, truthiness, [??]
      and [JSON.stringify];
    - the axios call as an explicit request/continuation structure, so that
      both the request a method issues and the way it settles can be stated;
    - the seven methods of the class, one definition per method. *)

From Stdlib Require Import String Ascii List ZArith Bool Lia DecimalString.
Import ListNotations.
Open Scope string_scope.

(* ===================================================================== *)
(** ** JavaScript values                                                 *)
(* ===================================================================== *)

Module Js.

(** JSON data plus [undefined].  Numbers are the integers: the client only
    passes numbers through, prints them and compares a length with 0.
    A string is a sequence of code units.  An object is the list of its own
    properties in the order they were added, which is the order JavaScript
    keeps for the names the client itself adds (none of them is an array
    index). *)
#[warnings="-register-all"]
Inductive JsVal : Type :=
| JUndefined
| JNull
| JBool (b : bool)
| JNum (n : Z)
| JStr (s : string)
| JArr (items : list JsVal)
| JObj (props : list (string * JsVal)).

Definition Obj : Type := list (string * JsVal).

(** An expression either yields a value or throws a [TypeError], the only
    exception the language operations below can raise on these values. *)
Inductive Completion (A : Type) : Type :=
| Normal (a : A)
| Throw_TypeError.
Arguments Normal {A} a.
Arguments Throw_TypeError {A}.

Definition bind {A B : Type} (c : Completion A) (f : A -> Completion B) : Completion B :=
  match c with
  | Normal a => f a
  | Throw_TypeError => Throw_TypeError
  end.

Notation "x <- c ;; k" := (bind c (fun x => k))
  (at level 61, c at next level, right associativity).

(** [o[k]] on the own properties. *)
Fixpoint obj_get (k : string) (o : Obj) : option JsVal :=
  match o with
  | [] => None
  | (k', v) :: rest => if (k' =? k)%string then Some v else obj_get k rest
  end.

(** [o[k] = v]: an existing property keeps its place, a new one is added last. *)
Fixpoint obj_set (k : string) (v : JsVal) (o : Obj) : Obj :=
  match o with
  | [] => [(k, v)]
  | (k', v') :: rest =>
      if (k' =? k)%string then (k, v) :: rest else (k', v') :: obj_set k v rest
  end.

Definition or_undefined (r : option JsVal) : JsVal :=
  match r with
  | Some v => v
  | None => JUndefined
  end.

(** The property name of array index [i]. *)
Definition index_key (i : nat) : string := NilEmpty.string_of_uint (Nat.to_uint i).

Fixpoint indexed (i : nat) (l : list JsVal) : Obj :=
  match l with
  | [] => []
  | x :: rest => (index_key i, x) :: indexed (S i) rest
  end.

Fixpoint chars (s : string) : list JsVal :=
  match s with
  | EmptyString => []
  | String c rest => JStr (String c EmptyString) :: chars rest
  end.

(** Own enumerable properties, as copied by [{...v}]. *)
Definition own_props (v : JsVal) : Obj :=
  match v with
  | JObj o => o
  | JArr l => indexed 0 l
  | JStr s => indexed 0 (chars s)
  | _ => []
  end.

(** [{...target, ...src}] continued from the properties already in [target]. *)
Definition spread (target : Obj) (src : JsVal) : Obj :=
  fold_left (fun acc kv => obj_set (fst kv) (snd kv) acc) (own_props src) target.

(** [v.k] and [v[k]].  Reading a property of [undefined] or [null] throws.
    Arrays and strings have [length] and their indices; the other names read
    by the client are not defined on any built-in prototype. *)
Definition get_prop (v : JsVal) (k : string) : Completion JsVal :=
  match v with
  | JUndefined | JNull => Throw_TypeError
  | JBool _ | JNum _ => Normal JUndefined
  | JStr s =>
      if (k =? "length")%string then Normal (JNum (Z.of_nat (String.length s)))
      else Normal (or_undefined (obj_get k (indexed 0 (chars s))))
  | JArr l =>
      if (k =? "length")%string then Normal (JNum (Z.of_nat (List.length l)))
      else Normal (or_undefined (obj_get k (indexed 0 l)))
  | JObj o => Normal (or_undefined (obj_get k o))
  end.

Definition is_undefined (v : JsVal) : bool :=
  match v with
  | JUndefined => true
  | _ => false
  end.

Definition nullish (v : JsVal) : bool :=
  match v with
  | JUndefined | JNull => true
  | _ => false
  end.

(** [a ?? b] with both sides already evaluated. *)
Definition coalesce (a b : JsVal) : JsVal := if nullish a then b else a.

(** ToBoolean. *)
Definition truthy (v : JsVal) : bool :=
  match v with
  | JUndefined | JNull => false
  | JBool b => b
  | JNum n => negb (n =? 0)%Z
  | JStr s => negb (s =? "")%string
  | JArr _ | JObj _ => true
  end.

(** A parameter declared [p = d]. *)
Definition default_param (v d : JsVal) : JsVal := if is_undefined v then d else v.

(** The decimal digits of an integer, which is how JavaScript prints an
    integer below 10^21 in magnitude. *)
Definition decimal (n : Z) : string := NilZero.string_of_int (Z.to_int n).

(** ToString, as applied by [String(v)] and by a template literal.  An array
    joins its elements with commas, [null] and [undefined] elements printing
    as nothing; an object prints through [Object.prototype.toString] unless
    an own [toString] property (never callable here) shadows it. *)
Fixpoint ToString (v : JsVal) : Completion string :=
  match v with
  | JUndefined => Normal "undefined"
  | JNull => Normal "null"
  | JBool true => Normal "true"
  | JBool false => Normal "false"
  | JNum n => Normal (decimal n)
  | JStr s => Normal s
  | JArr l =>
      let element x :=
        match x with
        | JUndefined | JNull => Normal ""
        | _ => ToString x
        end in
      (fix join (l : list JsVal) : Completion string :=
         match l with
         | [] => Normal ""
         | [x] => element x
         | x :: rest => s <- element x ;; r <- join rest ;; Normal (s ++ "," ++ r)
         end) l
  | JObj o =>
      match obj_get "toString" o with
      | Some _ => Throw_TypeError
      | None => Normal "[object Object]"
      end
  end.

Definition hex_digit (n : nat) : string :=
  String (nth n ["0"; "1"; "2"; "3"; "4"; "5"; "6"; "7"; "8"; "9";
                 "a"; "b"; "c"; "d"; "e"; "f"]%char "0"%char) "".

Definition quote_char : ascii := "034"%char.

Definition json_escape (c : ascii) : string :=
  let n := nat_of_ascii c in
  if (n =? 34)%nat then String "\" (String quote_char "")
  else if (n =? 92)%nat then "\\"
  else if (n =? 8)%nat then "\b"
  else if (n =? 9)%nat then "\t"
  else if (n =? 10)%nat then "\n"
  else if (n =? 12)%nat then "\f"
  else if (n =? 13)%nat then "\r"
  else if (n <? 32)%nat then "\u00" ++ hex_digit (n / 16) ++ hex_digit (n mod 16)
  else String c "".

Definition json_quote (s : string) : string :=
  String quote_char (String.concat "" (map json_escape (list_ascii_of_string s)))
  ++ String quote_char "".

(** The text [JSON.stringify] produces for a value nested in an array or an
    object ([undefined] prints as [null] in an array and drops its property
    in an object). *)
Fixpoint json_text (v : JsVal) : string :=
  match v with
  | JUndefined | JNull => "null"
  | JBool true => "true"
  | JBool false => "false"
  | JNum n => decimal n
  | JStr s => json_quote s
  | JArr l =>
      "[" ++
      (fix items (l : list JsVal) : string :=
         match l with
         | [] => ""
         | [x] => json_text x
         | x :: rest => json_text x ++ "," ++ items rest
         end) l
      ++ "]"
  | JObj o =>
      "{" ++
      (fix members (o : list (string * JsVal)) (first : bool) : string :=
         match o with
         | [] => ""
         | (k, x) :: rest =>
             match x with
             | JUndefined => members rest first
             | _ => (if first then "" else ",") ++ json_quote k ++ ":"
                    ++ json_text x ++ members rest false
             end
         end) o true
      ++ "}"
  end.

(** [JSON.stringify(v)]. *)
Definition JSON_stringify (v : JsVal) : JsVal :=
  match v with
  | JUndefined => JUndefined
  | _ => JStr (json_text v)
  end.

End Js.
Import Js.

(* ===================================================================== *)
(** ** The axios instance and promises                                   *)
(* ===================================================================== *)

Module Axios.

Inductive Method : Type := GET | POST | PUT | DELETE.

(** One call [axios.get(url, {params})], [axios.post(url, body)],
    [axios.put(url, body)] or [axios.delete(url)].  [params] is [None] when
    no config is passed; [body] is [None] for [get] and [delete]. *)
Record AxiosRequest : Type := {
  method : Method;
  url : string;
  params : option Obj;
  body : option Obj
}.

(** [res.data], [res.status] and [res.statusText]. *)
Record AxiosResponse : Type := {
  data : JsVal;
  status : Z;
  statusText : string
}.

(** How the axios promise settles: fulfilled with a response, or rejected
    with an error whose [response] property is the response of the server
    (a status the instance does not accept) or [undefined] (no response was
    received). *)
Inductive AxiosResult : Type :=
| Fulfilled (res : AxiosResponse)
| Failed (response : option AxiosResponse).

(** What a method can throw: the plain object built in its [catch] handler,
    or a [TypeError] raised by the runtime. *)
Inductive Thrown : Type :=
| TypeError
| ErrorObject (o : Obj).

(** A promise of the client: already settled, or waiting on one axios call
    and continuing with whatever it settles to. *)
Inductive Promise : Type :=
| Resolved (v : JsVal)
| Rejected (e : Thrown)
| Request (r : AxiosRequest) (k : AxiosResult -> Promise).

(** [await p] followed by the rest of an async function; a rejection of [p]
    rejects the function. *)
Fixpoint await (p : Promise) (k : JsVal -> Promise) : Promise :=
  match p with
  | Resolved v => k v
  | Rejected e => Rejected e
  | Request r h => Request r (fun a => await (h a) k)
  end.

(** [promise.then(onFulfilled).catch(onRejected)] where [onRejected] always
    throws.  The [catch] handler also receives what [onFulfilled] throws; it
    reads nothing of the error but [error.response], which a [TypeError]
    does not have. *)
Definition then_catch (onFulfilled : AxiosResponse -> Completion JsVal)
                      (onRejected : option AxiosResponse -> Thrown)
                      (a : AxiosResult) : Promise :=
  match a with
  | Fulfilled res =>
      match onFulfilled res with
      | Normal v => Resolved v
      | Throw_TypeError => Rejected (onRejected None)
      end
  | Failed response => Rejected (onRejected response)
  end.

Inductive Outcome : Type :=
| Resolves (v : JsVal)
| Rejects (e : Thrown).

(** Running a promise against a server: [axios r w] is how the call [r]
    settles in server state [w], and the state it leaves.  The result is the
    outcome, the calls made in order, and the final state. *)
Fixpoint run {W : Type} (axios : AxiosRequest -> W -> AxiosResult * W)
             (p : Promise) (w : W) : Outcome * list AxiosRequest * W :=
  match p with
  | Resolved v => (Resolves v, [], w)
  | Rejected e => (Rejects e, [], w)
  | Request r k =>
      let '(a, w1) := axios r w in
      let '(o, calls, w2) := run axios (k a) w1 in
      (o, r :: calls, w2)
  end.

End Axios.
Import Axios.

(* ===================================================================== *)
(** ** class FrappeDB                                                    *)
(* ===================================================================== *)

Module FrappeDB.

(** The constructor stores the app URL, the axios instance and the token
    settings; the methods below use the axios instance only, to which the
    [Request] of a promise is addressed.  [doctype] is a string as declared;
    document names, values and query arguments are JavaScript values, since
    the declared types allow [null] and [undefined] and the methods pass
    server data on to each other. *)

(** The object every [catch] handler throws:
<<
   { ...error.response.data,
     httpStatus: error.response.status,
     httpStatusText: error.response.statusText,
     message: <message>,
     exception: error.response.data.exception ?? error.response.data.exc_type ?? '' }
>>
    [message] is the expression of the handler at hand, evaluated on
    [error.response.data]. *)
Definition error_object (message : JsVal -> Completion JsVal)
                        (response : option AxiosResponse) : Thrown :=
  match response with
  | None => TypeError
  | Some r =>
      let copied := spread [] (data r) in
      let built :=
        m <- message (data r) ;;
        e <- get_prop (data r) "exception" ;;
        exception <- (if nullish e
                      then t <- get_prop (data r) "exc_type" ;;
                           Normal (coalesce t (JStr ""))
                      else Normal e) ;;
        Normal (obj_set "exception" exception
               (obj_set "message" m
               (obj_set "httpStatusText" (JStr (statusText r))
               (obj_set "httpStatus" (JNum (status r)) copied)))) in
      match built with
      | Normal o => ErrorObject o
      | Throw_TypeError => TypeError
      end
  end.

(** [message: '<text>'] *)
Definition literal_message (text : string) (d : JsVal) : Completion JsVal :=
  Normal (JStr text).

(** [message: error.response.data.message ?? '<text>'] *)
Definition server_message_or (text : string) (d : JsVal) : Completion JsVal :=
  m <- get_prop d "message" ;; Normal (coalesce m (JStr text)).

(** [(res) => res.data.data] *)
Definition res_data_data (res : AxiosResponse) : Completion JsVal :=
  get_prop (data res) "data".

(** An async function whose first step evaluates [c]. *)
Definition async {A : Type} (c : Completion A) (k : A -> Promise) : Promise :=
  match c with
  | Normal a => k a
  | Throw_TypeError => Rejected TypeError
  end.

Definition getDoc (doctype : string) (docname : JsVal) : Promise :=
  let docname := default_param docname (JStr "") in
  async (ToString docname) (fun name =>
  Request {| method := GET;
             url := "/api/resource/" ++ doctype ++ "/" ++ name;
             params := None;
             body := None |}
    (then_catch res_data_data
       (error_object (literal_message "There was an error while fetching the document.")))).

(** The [params] object of [getDocList]. *)
Definition getDocList_params (args : JsVal) : Completion Obj :=
  if truthy args then
    fields <- get_prop args "fields" ;;
    filters <- get_prop args "filters" ;;
    orFilters <- get_prop args "orFilters" ;;
    orderBy <- get_prop args "orderBy" ;;
    limit <- get_prop args "limit" ;;
    limit_start <- get_prop args "limit_start" ;;
    groupBy <- get_prop args "groupBy" ;;
    asDict0 <- get_prop args "asDict" ;;
    let asDict := default_param asDict0 (JBool true) in
    orderByString <-
      (if truthy orderBy then
         field <- get_prop orderBy "field" ;;
         f <- ToString field ;;
         order <- get_prop orderBy "order" ;;
         o <- ToString (coalesce order (JStr "asc")) ;;
         Normal (f ++ " " ++ o)
       else Normal "") ;;
    Normal [ ("fields", if truthy fields then JSON_stringify fields else JUndefined);
             ("filters", if truthy filters then JSON_stringify filters else JUndefined);
             ("or_filters", if truthy orFilters then JSON_stringify orFilters else JUndefined);
             ("order_by", JStr orderByString);
             ("group_by", groupBy);
             ("limit", limit);
             ("limit_start", limit_start);
             ("as_dict", asDict) ]
  else Normal [].

Definition getDocList (doctype : string) (args : JsVal) : Promise :=
  async (getDocList_params args) (fun params =>
  Request {| method := GET;
             url := "/api/resource/" ++ doctype;
             params := Some params;
             body := None |}
    (then_catch res_data_data
       (error_object (literal_message "There was an error while fetching the documents.")))).

Definition createDoc (doctype : string) (value : JsVal) : Promise :=
  Request {| method := POST;
             url := "/api/resource/" ++ doctype;
             params := None;
             body := Some (spread [] value) |}
    (then_catch res_data_data
       (error_object (server_message_or "There was an error while creating the document."))).

Definition updateDoc (doctype : string) (docname : JsVal) (value : JsVal) : Promise :=
  async (ToString docname) (fun name =>
  Request {| method := PUT;
             url := "/api/resource/" ++ doctype ++ "/" ++ name;
             params := None;
             body := Some (spread [] value) |}
    (then_catch res_data_data
       (error_object (server_message_or "There was an error while updating the document.")))).

Definition deleteDoc (doctype : string) (docname : JsVal) : Promise :=
  async (ToString docname) (fun name =>
  Request {| method := DELETE;
             url := "/api/resource/" ++ doctype ++ "/" ++ name;
             params := None;
             body := None |}
    (then_catch (fun res => Normal (data res))
       (error_object (literal_message "There was an error while deleting the document.")))).

(** The [params] object of [getCount]. *)
Definition getCount_params (doctype : string) (filters cache debug : JsVal) : Obj :=
  let cache := default_param cache (JBool false) in
  let debug := default_param debug (JBool false) in
  let params := [ ("doctype", JStr doctype); ("filters", JArr []) ] in
  let params := if truthy cache then obj_set "cache" cache params else params in
  let params := if truthy debug then obj_set "debug" debug params else params in
  if truthy filters
  then obj_set "filters"
         (if truthy filters then JSON_stringify filters else JUndefined) params
  else params.

Definition getCount (doctype : string) (filters cache debug : JsVal) : Promise :=
  Request {| method := GET;
             url := "/api/method/frappe.client.get_count";
             params := Some (getCount_params doctype filters cache debug);
             body := None |}
    (then_catch (fun res => get_prop (data res) "message")
       (error_object (literal_message "There was an error while getting the count."))).

(** The argument [{ ...queryArgs, limit: 1, fields: ['name'] }] that
    [getLastDoc] passes to [getDocList]. *)
Definition getLastDoc_query (args : JsVal) : Obj :=
  let queryArgs :=
    [ ("orderBy", JObj [ ("field", JStr "creation"); ("order", JStr "desc") ]) ] in
  let queryArgs :=
    if truthy args then spread (spread [] (JObj queryArgs)) args else queryArgs in
  obj_set "fields" (JArr [JStr "name"])
    (obj_set "limit" (JNum 1) (spread [] (JObj queryArgs))).

Section Runtime.

(** Whether the number a string converts to is greater than zero.  The
    conversion of strings to numbers belongs to the language runtime and
    is left open. *)
Variable StringToNumber_gt0 : string -> bool.

(** [v > 0].  Arrays and objects convert through their string form. *)
Definition gt_zero (v : JsVal) : Completion bool :=
  match v with
  | JNum n => Normal (0 <? n)%Z
  | JUndefined | JNull => Normal false
  | JBool b => Normal b
  | JStr s => Normal (StringToNumber_gt0 s)
  | JArr _ | JObj _ => s <- ToString v ;; Normal (StringToNumber_gt0 s)
  end.

(** The part of [getLastDoc] after the [await]. *)
Definition getLastDoc_found (doctype : string) (getDocLists : JsVal) : Promise :=
  async (len <- get_prop getDocLists "length" ;; gt_zero len) (fun nonempty =>
  if (nonempty : bool) then
    async (first <- get_prop getDocLists "0" ;; get_prop first "name")
          (fun name => getDoc doctype name)
  else Resolved (JObj [])).

Definition getLastDoc (doctype : string) (args : JsVal) : Promise :=
  await (getDocList doctype (JObj (getLastDoc_query args)))
        (getLastDoc_found doctype).

End Runtime.

(** The six single-request methods with their arguments. *)
Inductive Call : Type :=
| CallGetDoc (doctype : string) (docname : JsVal)
| CallGetDocList (doctype : string) (args : JsVal)
| CallCreateDoc (doctype : string) (value : JsVal)
| CallUpdateDoc (doctype : string) (docname : JsVal) (value : JsVal)
| CallDeleteDoc (doctype : string) (docname : JsVal)
| CallGetCount (doctype : string) (filters cache debug : JsVal).

Definition invoke (c : Call) : Promise :=
  match c with
  | CallGetDoc doctype docname => getDoc doctype docname
  | CallGetDocList doctype args => getDocList doctype args
  | CallCreateDoc doctype value => createDoc doctype value
  | CallUpdateDoc doctype docname value => updateDoc doctype docname value
  | CallDeleteDoc doctype docname => deleteDoc doctype docname
  | CallGetCount doctype filters cache debug => getCount doctype filters cache debug
  end.

End FrappeDB.
Import FrappeDB.

(* ===================================================================== *)
(** ** The documented contract, in its own words                         *)
(* ===================================================================== *)

Module Contract.

(** The operation-specific default text of the error message. *)
Definition default_text (c : Call) : string :=
  match c with
  | CallGetDoc _ _ => "There was an error while fetching the document."
  | CallGetDocList _ _ => "There was an error while fetching the documents."
  | CallCreateDoc _ _ => "There was an error while creating the document."
  | CallUpdateDoc _ _ _ => "There was an error while updating the document."
  | CallDeleteDoc _ _ => "There was an error while deleting the document."
  | CallGetCount _ _ _ _ => "There was an error while getting the count."
  end.

(** Create and update are the operations that pass the server's message on. *)
Definition takes_server_message (c : Call) : bool :=
  match c with
  | CallCreateDoc _ _ | CallUpdateDoc _ _ _ => true
  | _ => false
  end.

(** The read operations among the six. *)
Definition is_read (c : Call) : bool :=
  match c with
  | CallGetDoc _ _ | CallGetDocList _ _ | CallGetCount _ _ _ _ => true
  | _ => false
  end.

(** A field of a body is present when reading it gives a value other than
    [undefined] and [null]. *)
Definition present (d : JsVal) (k : string) : option JsVal :=
  match get_prop d k with
  | Normal v => if nullish v then None else Some v
  | Throw_TypeError => None
  end.

(** The message of the error: the default text, or for create and update
    the server's message when present. *)
Definition expected_message (c : Call) (d : JsVal) : JsVal :=
  if takes_server_message c then
    match present d "message" with
    | Some m => m
    | None => JStr (default_text c)
    end
  else JStr (default_text c).

(** The exception of the error: the server's [exception] if present, else
    [exc_type] if present, else the empty string. *)
Definition expected_exception (d : JsVal) : JsVal :=
  match present d "exception" with
  | Some e => e
  | None =>
      match present d "exc_type" with
      | Some t => t
      | None => JStr ""
      end
  end.

(** The four fields the client adds to the server's body. *)
Definition client_field (k : string) : bool :=
  (k =? "httpStatus")%string || (k =? "httpStatusText")%string
  || (k =? "message")%string || (k =? "exception")%string.

(** The request a promise starts with, if it makes one. *)
Definition first_request (p : Promise) : option AxiosRequest :=
  match p with
  | Request r _ => Some r
  | _ => None
  end.

(** The entries of a [params] object that carry a value. *)
Definition defined_params (o : Obj) : Obj :=
  filter (fun kv => negb (is_undefined (snd kv))) o.

(** An object is well formed when no property name occurs twice. *)
Definition well_formed (o : Obj) : Prop := NoDup (map fst o).

(** The value a method resolves to on a fulfilled request. *)
Definition unwrap (c : Call) : AxiosResponse -> Completion JsVal :=
  match c with
  | CallDeleteDoc _ _ => fun res => Normal (data res)
  | CallGetCount _ _ _ _ => fun res => get_prop (data res) "message"
  | _ => fun res => get_prop (data res) "data"
  end.

(** The [message] expression of the method's [catch] handler. *)
Definition message_rule (c : Call) : JsVal -> Completion JsVal :=
  if takes_server_message c
  then server_message_or (default_text c)
  else literal_message (default_text c).

(** The field of the response body a method unwraps: [data] for the
    resource operations, [message] for the count, none for delete. *)
Definition unwrapped_field (c : Call) : option string :=
  match c with
  | CallDeleteDoc _ _ => None
  | CallGetCount _ _ _ _ => Some "message"
  | _ => Some "data"
  end.

(** The sort direction of an [orderBy] object: its [order], and [asc] when
    the order is omitted. *)
Definition direction (orderBy : Obj) : option string :=
  match obj_get "order" orderBy with
  | None | Some JUndefined | Some JNull => Some "asc"
  | Some (JStr d) => Some d
  | Some _ => None
  end.

(** The default query arguments of [getLastDoc]. *)
Definition default_query : Obj :=
  [ ("orderBy", JObj [ ("field", JStr "creation"); ("order", JStr "desc") ]) ].

(** An optional array argument: the array, or [undefined] when omitted. *)
Definition optional_array (l : option (list JsVal)) : JsVal :=
  match l with
  | Some items => JArr items
  | None => JUndefined
  end.

End Contract.
Import Contract.

(* ===================================================================== *)
(** ** Servers and responses used in the examples                        *)
(* ===================================================================== *)

Module Examples.

(** A server without state that settles every call the same way. *)
Definition always (a : AxiosResult) : AxiosRequest -> unit -> AxiosResult * unit :=
  fun _ w => (a, w).

(** A server that counts the calls it has answered: the first call gets
    [first], every later call gets [later]. *)
Definition first_then (first later : AxiosResult)
  : AxiosRequest -> nat -> AxiosResult * nat :=
  fun _ n => (match n with O => first | S _ => later end, S n).

Definition ok (d : JsVal) : AxiosResponse :=
  {| data := d; status := 200; statusText := "OK" |}.

Definition not_found : AxiosResponse :=
  {| data := JObj [("exc_type", JStr "DoesNotExistError")];
     status := 404; statusText := "NOT FOUND" |}.

(** An error body that itself carries the four names the client writes. *)
Definition clashing : AxiosResponse :=
  {| data := JObj [ ("httpStatus", JNum 200);
                    ("message", JStr "Duplicate entry");
                    ("exception", JStr "frappe.exceptions.DuplicateEntryError");
                    ("httpStatusText", JStr "fine");
                    ("_server_messages", JStr "[]") ];
     status := 409; statusText := "CONFLICT" |}.

Definition task : JsVal := JObj [("subject", JStr "X")].

(** A conversion of strings to numbers good enough for the examples: only
    the empty string and ["0"] are not greater than zero. *)
Definition simple_gt0 (s : string) : bool :=
  negb ((s =? "")%string || (s =? "0")%string).

End Examples.
Import Examples.

(* ===================================================================== *)
(** ** The shape of requests and runs                                    *)
(* ===================================================================== *)

Module Shapes.

(** The HTTP verb of the axios function a method calls. *)
Definition verb (c : Call) : Method :=
  match c with
  | CallCreateDoc _ _ => POST
  | CallUpdateDoc _ _ _ => PUT
  | CallDeleteDoc _ _ => DELETE
  | _ => GET
  end.

(** The methods that hand axios a request body. *)
Definition sends_body (c : Call) : bool :=
  match c with
  | CallCreateDoc _ _ | CallUpdateDoc _ _ _ => true
  | _ => false
  end.

(** The methods that evaluate no template literal and no conversion
    before they call axios. *)
Definition always_calls (c : Call) : bool :=
  match c with
  | CallCreateDoc _ _ | CallGetCount _ _ _ _ => true
  | _ => false
  end.

(** The methods that hand axios a [params] object. *)
Definition sends_params (c : Call) : bool :=
  match c with
  | CallGetDocList _ _ | CallGetCount _ _ _ _ => true
  | _ => false
  end.

Definition given {A : Type} (o : option A) : bool :=
  match o with
  | Some _ => true
  | None => false
  end.

(** The calls a run made, and how it settled. *)
Definition calls_made {W : Type} (r : Outcome * list AxiosRequest * W)
  : list AxiosRequest := snd (fst r).

Definition outcome_of {W : Type} (r : Outcome * list AxiosRequest * W)
  : Outcome := fst (fst r).

(** A string argument that may be omitted. *)
Definition optional_string (s : option string) : JsVal :=
  match s with
  | Some text => JStr text
  | None => JUndefined
  end.

(** A request that never got a response. *)
Definition unreachable : AxiosResult := Failed None.

(** An error response with the body [null]. *)
Definition empty_error : AxiosResponse :=
  {| data := JNull; status := 500; statusText := "INTERNAL SERVER ERROR" |}.

End Shapes.
Import Shapes.

(* ===================================================================== *)
(** ** Objects: reading after writing                                    *)
(* ===================================================================== *)

Lemma obj_get_set (k k' : string) (v : JsVal) (o : Obj) :
  obj_get k' (obj_set k v o) = if (k =? k')%string then Some v else obj_get k' o.
Proof.
  induction o as [|[k0 v0] rest IH]; simpl.
  - destruct (String.eqb_spec k k'); reflexivity.
  - destruct (String.eqb_spec k0 k) as [->|Hne]; simpl.
    + destruct (String.eqb_spec k k'); reflexivity.
    + rewrite IH.
      destruct (String.eqb_spec k0 k') as [->|Hne']; [|reflexivity].
      destruct (String.eqb_spec k k'); [congruence|reflexivity].
Qed.

Lemma obj_get_set_eq (k : string) (v : JsVal) (o : Obj) :
  obj_get k (obj_set k v o) = Some v.
Proof. rewrite obj_get_set, String.eqb_refl. reflexivity. Qed.

Lemma obj_get_set_ne (k k' : string) (v : JsVal) (o : Obj) :
  k <> k' -> obj_get k' (obj_set k v o) = obj_get k' o.
Proof.
  intros Hne. rewrite obj_get_set.
  destruct (String.eqb_spec k k'); [contradiction|reflexivity].
Qed.

Lemma obj_get_not_in (k : string) (o : Obj) :
  ~ In k (map fst o) -> obj_get k o = None.
Proof.
  induction o as [|[k0 v0] rest IH]; simpl; intros Hn; [reflexivity|].
  destruct (String.eqb_spec k0 k) as [->|Hne].
  - exfalso. apply Hn. now left.
  - apply IH. intros Hin. apply Hn. now right.
Qed.

(** Writing a property that is not there yet appends it. *)
Lemma obj_set_fresh (k : string) (v : JsVal) (o : Obj) :
  ~ In k (map fst o) -> obj_set k v o = (o ++ [(k, v)])%list.
Proof.
  induction o as [|[k0 v0] rest IH]; simpl; intros Hn; [reflexivity|].
  destruct (String.eqb_spec k0 k) as [->|Hne].
  - exfalso. apply Hn. now left.
  - rewrite IH; [reflexivity|]. intros Hin. apply Hn. now right.
Qed.

Lemma fold_set_fresh (props acc : Obj) :
  NoDup (map fst (acc ++ props)%list) ->
  fold_left (fun a kv => obj_set (fst kv) (snd kv) a) props acc = (acc ++ props)%list.
Proof.
  revert acc. induction props as [|[k v] rest IH]; intros acc Hnd; simpl.
  - now rewrite app_nil_r.
  - rewrite obj_set_fresh.
    + rewrite IH; rewrite <- app_assoc; simpl; [reflexivity|exact Hnd].
    + rewrite map_app in Hnd. simpl in Hnd.
      apply NoDup_remove_2 in Hnd. intros Hin. apply Hnd.
      apply in_or_app. now left.
Qed.

(** Copying a well-formed object gives the object back. *)
Lemma spread_copy (o : Obj) : well_formed o -> spread [] (JObj o) = o.
Proof. intros Hwf. unfold spread. simpl. now rewrite fold_set_fresh. Qed.

(** A property of [{...target, ...src}] is the last one [src] gives for that
    name, and the one of [target] when [src] has none. *)
Lemma obj_get_fold_set (k : string) (props acc : Obj) :
  obj_get k (fold_left (fun a kv => obj_set (fst kv) (snd kv) a) props acc) =
  match obj_get k (rev props) with
  | Some v => Some v
  | None => obj_get k acc
  end.
Proof.
  revert acc. induction props as [|[k0 v0] rest IH]; intros acc; simpl.
  - reflexivity.
  - rewrite IH. clear IH.
    assert (Happ : forall (l : Obj) k1 v1,
               obj_get k (l ++ [(k1, v1)])%list =
               match obj_get k l with
               | Some v => Some v
               | None => if (k1 =? k)%string then Some v1 else None
               end).
    { induction l as [|[k2 v2] l IHl]; intros k1 v1; simpl.
      - reflexivity.
      - destruct (k2 =? k)%string; [reflexivity|apply IHl]. }
    rewrite Happ, obj_get_set.
    destruct (obj_get k (rev rest)); [reflexivity|].
    destruct (k0 =? k)%string; reflexivity.
Qed.

Lemma obj_get_rev (k : string) (o : Obj) :
  well_formed o -> obj_get k (rev o) = obj_get k o.
Proof.
  unfold well_formed.
  induction o as [|[k0 v0] rest IH]; simpl; intros Hnd; [reflexivity|].
  inversion Hnd as [|? ? Hnotin Hnd']; subst.
  assert (Happ : forall (l : Obj),
             obj_get k (l ++ [(k0, v0)])%list =
             match obj_get k l with
             | Some v => Some v
             | None => if (k0 =? k)%string then Some v0 else None
             end).
  { induction l as [|[k2 v2] l IHl]; simpl.
    - reflexivity.
    - destruct (k2 =? k)%string; [reflexivity|apply IHl]. }
  rewrite Happ, IH by assumption.
  destruct (String.eqb_spec k0 k) as [->|Hne].
  - now rewrite (obj_get_not_in k rest Hnotin).
  - destruct (obj_get k rest); reflexivity.
Qed.

(** Shallow merge: the properties of a well-formed [src] win, the others are
    those of [target]. *)
Lemma obj_get_spread (k : string) (target src : Obj) :
  well_formed src ->
  obj_get k (spread target (JObj src)) =
  match obj_get k src with
  | Some v => Some v
  | None => obj_get k target
  end.
Proof.
  intros Hwf. unfold spread. simpl.
  now rewrite obj_get_fold_set, obj_get_rev.
Qed.

(* ===================================================================== *)
(** ** How the six methods settle                                        *)
(* ===================================================================== *)

(** Every method that gets as far as its request continues with its own
    [then] and [catch] handlers. *)
Lemma invoke_request (c : Call) (req : AxiosRequest) (k : AxiosResult -> Promise) :
  invoke c = Request req k ->
  k = then_catch (unwrap c) (error_object (message_rule c)).
Proof.
  destruct c; simpl;
    unfold getDoc, getDocList, createDoc, updateDoc, deleteDoc, getCount, async;
    try match goal with
        | |- context [match ?c with Normal _ => _ | Throw_TypeError => _ end] => destruct c
        end;
    intros H; inversion H; reflexivity.
Qed.

Lemma first_request_inv (p : Promise) (req : AxiosRequest) :
  first_request p = Some req -> exists k, p = Request req k.
Proof.
  destruct p; simpl; intros H; inversion H; subst. eexists; reflexivity.
Qed.

Lemma run_request {W : Type} (axios : AxiosRequest -> W -> AxiosResult * W)
      (req : AxiosRequest) (k : AxiosResult -> Promise) (w w' : W) (a : AxiosResult) :
  axios req w = (a, w') ->
  run axios (Request req k) w =
  (let '(o, calls, w2) := run axios (k a) w' in (o, req :: calls, w2)).
Proof. intros H. simpl. rewrite H. reflexivity. Qed.

Lemma get_prop_defined (d : JsVal) (k : string) :
  nullish d = false -> exists v, get_prop d k = Normal v.
Proof.
  destruct d; simpl; intros H; try discriminate; try (eexists; reflexivity);
    destruct (k =? "length")%string; eexists; reflexivity.
Qed.

Lemma message_rule_defined (c : Call) (d : JsVal) :
  nullish d = false -> message_rule c d = Normal (expected_message c d).
Proof.
  intros Hd. unfold message_rule, expected_message, present.
  destruct (takes_server_message c); [|reflexivity].
  unfold server_message_or, coalesce.
  destruct (get_prop_defined d "message" Hd) as [m ->]. simpl.
  destruct (nullish m); reflexivity.
Qed.

(** The object thrown for a response whose body is not [null] or
    [undefined]: the copied body with the four client fields written last. *)
Lemma error_object_built (c : Call) (r : AxiosResponse) :
  nullish (data r) = false ->
  error_object (message_rule c) (Some r) =
  ErrorObject
    (obj_set "exception" (expected_exception (data r))
    (obj_set "message" (expected_message c (data r))
    (obj_set "httpStatusText" (JStr (statusText r))
    (obj_set "httpStatus" (JNum (status r)) (spread [] (data r)))))).
Proof.
  intros Hd. unfold error_object.
  rewrite (message_rule_defined c _ Hd). simpl.
  unfold expected_exception, present.
  destruct (get_prop_defined (data r) "exception" Hd) as [e ->]. simpl.
  destruct (nullish e); simpl; [|reflexivity].
  destruct (get_prop_defined (data r) "exc_type" Hd) as [t ->]. simpl.
  unfold coalesce. destruct (nullish t); reflexivity.
Qed.

Lemma client_field_false (k : string) :
  client_field k = false ->
  "httpStatus" <> k /\ "httpStatusText" <> k /\ "message" <> k /\ "exception" <> k.
Proof.
  unfold client_field. intros H.
  repeat (apply orb_false_iff in H; destruct H as [H ?]).
  repeat split; intros <-; discriminate.
Qed.

(** A failed request of any of the six methods rejects with [error_object]. *)
Lemma invoke_rejects {W : Type} (axios : AxiosRequest -> W -> AxiosResult * W)
      (c : Call) (req : AxiosRequest) (w w' : W) (response : option AxiosResponse) :
  first_request (invoke c) = Some req ->
  axios req w = (Failed response, w') ->
  run axios (invoke c) w = (Rejects (error_object (message_rule c) response), [req], w').
Proof.
  intros Hreq Hax.
  destruct (first_request_inv _ _ Hreq) as [k Hk].
  rewrite Hk, (run_request _ _ _ _ _ _ Hax), (invoke_request _ _ _ Hk).
  reflexivity.
Qed.

(** C1. Whenever one of the six methods has its request answered with an
    error response whose body is neither [null] nor [undefined], it rejects
    with an object that carries
    [httpStatus] (the status code), [httpStatusText] (the status text),
    [message] (the method's default text, or for create and update the
    server's message when present) and [exception] (the server's
    [exception], else [exc_type], else the empty string), and that agrees
    with a shallow copy of the server's body on every other property.  In
    particular a 404 with body [{exc_type: "DoesNotExistError"}] makes
    every read method, and [getLastDoc] through its list request, reject
    with exactly the body plus status 404, the default message and
    exception ["DoesNotExistError"]. *)
Theorem error_normalization :
  (forall (W : Type) (axios : AxiosRequest -> W -> AxiosResult * W)
          (c : Call) (req : AxiosRequest) (w w' : W) (r : AxiosResponse),
      first_request (invoke c) = Some req ->
      axios req w = (Failed (Some r), w') ->
      nullish (data r) = false ->
      exists E : Obj,
        run axios (invoke c) w = (Rejects (ErrorObject E), [req], w') /\
        obj_get "httpStatus" E = Some (JNum (status r)) /\
        obj_get "httpStatusText" E = Some (JStr (statusText r)) /\
        obj_get "message" E = Some (expected_message c (data r)) /\
        obj_get "exception" E = Some (expected_exception (data r)) /\
        (forall k, client_field k = false ->
                   obj_get k E = obj_get k (spread [] (data r))) /\
        (forall o, data r = JObj o -> well_formed o ->
                   forall k, client_field k = false -> obj_get k E = obj_get k o))
  /\
  (forall (W : Type) (axios : AxiosRequest -> W -> AxiosResult * W)
          (c : Call) (req : AxiosRequest) (w w' : W) (text : string),
      is_read c = true ->
      first_request (invoke c) = Some req ->
      axios req w =
        (Failed (Some {| data := JObj [("exc_type", JStr "DoesNotExistError")];
                         status := 404; statusText := text |}), w') ->
      run axios (invoke c) w =
        (Rejects (ErrorObject [ ("exc_type", JStr "DoesNotExistError");
                                ("httpStatus", JNum 404);
                                ("httpStatusText", JStr text);
                                ("message", JStr (default_text c));
                                ("exception", JStr "DoesNotExistError") ]),
         [req], w'))
  /\
  (forall (W : Type) (axios : AxiosRequest -> W -> AxiosResult * W)
          (to_number_gt0 : string -> bool) (doctype : string) (args : JsVal)
          (req : AxiosRequest) (w w' : W) (text : string),
      first_request (getLastDoc to_number_gt0 doctype args) = Some req ->
      axios req w =
        (Failed (Some {| data := JObj [("exc_type", JStr "DoesNotExistError")];
                         status := 404; statusText := text |}), w') ->
      run axios (getLastDoc to_number_gt0 doctype args) w =
        (Rejects (ErrorObject [ ("exc_type", JStr "DoesNotExistError");
                                ("httpStatus", JNum 404);
                                ("httpStatusText", JStr text);
                                ("message", JStr "There was an error while fetching the documents.");
                                ("exception", JStr "DoesNotExistError") ]),
         [req], w')).
Proof.
  split; [|split].
  - intros W axios c req w w' r Hreq Hax Hd.
    eexists. split.
    { rewrite (invoke_rejects _ _ _ _ _ _ Hreq Hax), (error_object_built _ _ Hd).
      reflexivity. }
    assert (Hother : forall k, client_field k = false ->
              obj_get k
                (obj_set "exception" (expected_exception (data r))
                (obj_set "message" (expected_message c (data r))
                (obj_set "httpStatusText" (JStr (statusText r))
                (obj_set "httpStatus" (JNum (status r)) (spread [] (data r)))))) =
              obj_get k (spread [] (data r))).
    { intros k Hk. destruct (client_field_false _ Hk) as (H1 & H2 & H3 & H4).
      now rewrite !obj_get_set_ne. }
    repeat split.
    + rewrite !obj_get_set_ne by discriminate. apply obj_get_set_eq.
    + rewrite !obj_get_set_ne by discriminate. apply obj_get_set_eq.
    + rewrite !obj_get_set_ne by discriminate. apply obj_get_set_eq.
    + apply obj_get_set_eq.
    + exact Hother.
    + intros o Ho Hwf k Hk. rewrite (Hother k Hk), Ho.
      now rewrite spread_copy.
  - intros W axios c req w w' text Hread Hreq Hax.
    rewrite (invoke_rejects _ _ _ _ _ _ Hreq Hax).
    destruct c; try discriminate Hread; reflexivity.
  - intros W axios to_number_gt0 doctype args req w w' text Hreq Hax.
    unfold getLastDoc, getDocList, async in *.
    destruct (getDocList_params (JObj (getLastDoc_query args))); simpl in Hreq;
      [|discriminate].
    inversion Hreq; subst. simpl. rewrite Hax. reflexivity.
Qed.

Lemma error_normalization_witness :
  let c := CallCreateDoc "Task" task in
  let req := {| method := POST; url := "/api/resource/Task"; params := None;
                body := Some [("subject", JStr "X")] |} in
  let read := CallGetCount "Task" JUndefined JUndefined JUndefined in
  let counted := {| method := GET; url := "/api/method/frappe.client.get_count";
                    params := Some [("doctype", JStr "Task"); ("filters", JArr [])];
                    body := None |} in
  (first_request (invoke c) = Some req /\
   always (Failed (Some clashing)) req tt = (Failed (Some clashing), tt) /\
   nullish (data clashing) = false) /\
  (exists E : Obj,
     run (always (Failed (Some clashing))) (invoke c) tt
       = (Rejects (ErrorObject E), [req], tt) /\
     obj_get "httpStatus" E = Some (JNum 409) /\
     obj_get "message" E = Some (JStr "Duplicate entry") /\
     obj_get "_server_messages" E = Some (JStr "[]")) /\
  (is_read read = true /\ first_request (invoke read) = Some counted) /\
  run (always (Failed (Some not_found))) (invoke read) tt =
    (Rejects (ErrorObject [ ("exc_type", JStr "DoesNotExistError");
                            ("httpStatus", JNum 404);
                            ("httpStatusText", JStr "NOT FOUND");
                            ("message", JStr "There was an error while getting the count.");
                            ("exception", JStr "DoesNotExistError") ]),
     [counted], tt).
Proof.
  intros c req read counted. split; [repeat split|].
  destruct error_normalization as (Hgeneral & Hread & _).
  split; [|split; [split; reflexivity|]].
  - destruct (Hgeneral unit (always (Failed (Some clashing)))
                c req tt tt clashing eq_refl eq_refl eq_refl)
      as (E & Hrun & Hs & _ & Hm & _ & _ & Hbody).
    exists E. repeat split.
    + exact Hrun.
    + exact Hs.
    + exact Hm.
    + rewrite (Hbody _ eq_refl); [reflexivity| |reflexivity].
      unfold well_formed. simpl.
      repeat (constructor; [simpl; intuition discriminate|]). constructor.
  - exact (Hread unit (always (Failed (Some not_found))) read counted tt tt
             "NOT FOUND" eq_refl eq_refl eq_refl).
Defined.

(** C10. In the error path of each of the six methods the thrown object is
    the copied server body with [httpStatus], [httpStatusText], [message]
    and [exception] written after it, in that order; whatever the body
    holds under those four names, the thrown object holds the values the
    client computed. *)
Theorem client_fields_override :
  forall (W : Type) (axios : AxiosRequest -> W -> AxiosResult * W)
         (c : Call) (req : AxiosRequest) (w w' : W) (r : AxiosResponse) (o : Obj),
    first_request (invoke c) = Some req ->
    axios req w = (Failed (Some r), w') ->
    data r = JObj o ->
    exists E : Obj,
      run axios (invoke c) w = (Rejects (ErrorObject E), [req], w') /\
      E = obj_set "exception" (expected_exception (JObj o))
         (obj_set "message" (expected_message c (JObj o))
         (obj_set "httpStatusText" (JStr (statusText r))
         (obj_set "httpStatus" (JNum (status r)) (spread [] (JObj o))))) /\
      obj_get "httpStatus" E = Some (JNum (status r)) /\
      obj_get "httpStatusText" E = Some (JStr (statusText r)) /\
      obj_get "message" E = Some (expected_message c (JObj o)) /\
      obj_get "exception" E = Some (expected_exception (JObj o)).
Proof.
  intros W axios c req w w' r o Hreq Hax Ho.
  assert (Hd : nullish (data r) = false) by now rewrite Ho.
  eexists. split; [|split; [reflexivity|]].
  - rewrite (invoke_rejects _ _ _ _ _ _ Hreq Hax), (error_object_built _ _ Hd), Ho.
    reflexivity.
  - repeat split.
    + rewrite !obj_get_set_ne by discriminate. apply obj_get_set_eq.
    + rewrite !obj_get_set_ne by discriminate. apply obj_get_set_eq.
    + rewrite !obj_get_set_ne by discriminate. apply obj_get_set_eq.
    + apply obj_get_set_eq.
Qed.

Lemma client_fields_override_witness :
  let c := CallGetDoc "Task" (JStr "TASK-0001") in
  let req := {| method := GET; url := "/api/resource/Task/TASK-0001";
                params := None; body := None |} in
  (first_request (invoke c) = Some req /\
   always (Failed (Some clashing)) req tt = (Failed (Some clashing), tt) /\
   (exists o, data clashing = JObj o /\ obj_get "httpStatus" o = Some (JNum 200))) /\
  run (always (Failed (Some clashing))) (invoke c) tt =
    (Rejects (ErrorObject
       [ ("httpStatus", JNum 409);
         ("message", JStr "There was an error while fetching the document.");
         ("exception", JStr "frappe.exceptions.DuplicateEntryError");
         ("httpStatusText", JStr "CONFLICT");
         ("_server_messages", JStr "[]") ]),
     [req], tt).
Proof.
  intros c req. split.
  - repeat split. eexists. split; reflexivity.
  - destruct (client_fields_override unit (always (Failed (Some clashing)))
                c req tt tt clashing _ eq_refl eq_refl eq_refl)
      as (E & Hrun & HE & _).
    rewrite Hrun, HE. reflexivity.
Defined.

(** A fulfilled request of any of the six methods settles through the
    method's [then] handler. *)
Lemma invoke_fulfilled {W : Type} (axios : AxiosRequest -> W -> AxiosResult * W)
      (c : Call) (req : AxiosRequest) (w w' : W) (res : AxiosResponse) :
  first_request (invoke c) = Some req ->
  axios req w = (Fulfilled res, w') ->
  run axios (invoke c) w =
  (match unwrap c res with
   | Normal v => Resolves v
   | Throw_TypeError => Rejects TypeError
   end, [req], w').
Proof.
  intros Hreq Hax.
  destruct (first_request_inv _ _ Hreq) as [k Hk].
  rewrite Hk, (run_request _ _ _ _ _ _ Hax), (invoke_request _ _ _ Hk).
  simpl. destruct (unwrap c res); reflexivity.
Qed.

(** C6. [deleteDoc] resolves to the response body as it is, for every
    body; each of the other five methods resolves to one field of the
    body, [data] for the resource methods and [message] for the count. *)
Theorem delete_returns_raw_body :
  forall (W : Type) (axios : AxiosRequest -> W -> AxiosResult * W)
         (c : Call) (req : AxiosRequest) (w w' : W) (res : AxiosResponse),
    first_request (invoke c) = Some req ->
    axios req w = (Fulfilled res, w') ->
    match unwrapped_field c with
    | None =>
        (exists doctype docname, c = CallDeleteDoc doctype docname) /\
        run axios (invoke c) w = (Resolves (data res), [req], w')
    | Some field =>
        (forall doctype docname, c <> CallDeleteDoc doctype docname) /\
        (forall v, get_prop (data res) field = Normal v ->
                   run axios (invoke c) w = (Resolves v, [req], w')) /\
        (forall body, data res = JObj body ->
                   run axios (invoke c) w =
                   (Resolves (or_undefined (obj_get field body)), [req], w'))
    end.
Proof.
  intros W axios c req w w' res Hreq Hax.
  pose proof (invoke_fulfilled axios c req w w' res Hreq Hax) as Hrun.
  destruct c; simpl in *;
    try (split; [intros; discriminate|split;
           [intros v Hv; rewrite Hv in Hrun; exact Hrun
           |intros o Ho; rewrite Ho in Hrun; exact Hrun]]).
  split; [eauto|exact Hrun].
Qed.

Lemma delete_returns_raw_body_witness :
  let c := CallDeleteDoc "Task" (JStr "TASK-0001") in
  let req := {| method := DELETE; url := "/api/resource/Task/TASK-0001";
                params := None; body := None |} in
  let answer := Fulfilled (ok (JObj [("message", JStr "ok")])) in
  (first_request (invoke c) = Some req /\
   always answer req tt = (answer, tt)) /\
  run (always answer) (invoke c) tt =
    (Resolves (JObj [("message", JStr "ok")]), [req], tt).
Proof.
  intros c req answer. split; [split; reflexivity|].
  exact (proj2 (delete_returns_raw_body unit (always answer) c req tt tt _
                  eq_refl eq_refl)).
Defined.

(** C8. [createDoc] posts to [/api/resource/{doctype}] a body that is the
    value's own properties at the top level, and resolves to the [data]
    field of the response body. *)
Theorem create_posts_value :
  forall (doctype : string) (value : JsVal),
    well_formed (own_props value) ->
    first_request (createDoc doctype value) =
      Some {| method := POST; url := "/api/resource/" ++ doctype;
              params := None; body := Some (own_props value) |} /\
    forall (W : Type) (axios : AxiosRequest -> W -> AxiosResult * W)
           (w w' : W) (res : AxiosResponse) (v : JsVal),
      axios {| method := POST; url := "/api/resource/" ++ doctype;
               params := None; body := Some (own_props value) |} w
        = (Fulfilled res, w') ->
      get_prop (data res) "data" = Normal v ->
      run axios (createDoc doctype value) w =
        (Resolves v,
         [ {| method := POST; url := "/api/resource/" ++ doctype;
              params := None; body := Some (own_props value) |} ], w').
Proof.
  intros doctype value Hwf.
  assert (Hbody : spread [] value = own_props value).
  { unfold spread. now rewrite fold_set_fresh. }
  assert (Hreq : first_request (invoke (CallCreateDoc doctype value)) =
                 Some {| method := POST; url := "/api/resource/" ++ doctype;
                         params := None; body := Some (own_props value) |}).
  { simpl. now rewrite Hbody. }
  split; [exact Hreq|].
  intros W axios w w' res v Hax Hv.
  change (createDoc doctype value) with (invoke (CallCreateDoc doctype value)).
  rewrite (invoke_fulfilled _ _ _ _ _ _ Hreq Hax). simpl. now rewrite Hv.
Qed.

Lemma create_posts_value_witness :
  let req := {| method := POST; url := "/api/resource/Task"; params := None;
                body := Some [("subject", JStr "X")] |} in
  let answer := Fulfilled (ok (JObj [("data", JObj [("name", JStr "TASK-0001");
                                                    ("subject", JStr "X")])])) in
  well_formed (own_props task) /\
  first_request (createDoc "Task" task) = Some req /\
  run (always answer) (createDoc "Task" task) tt =
    (Resolves (JObj [("name", JStr "TASK-0001"); ("subject", JStr "X")]), [req], tt).
Proof.
  intros req answer.
  assert (Hwf : well_formed (own_props task)).
  { unfold well_formed. simpl. constructor; [simpl; tauto|constructor]. }
  split; [exact Hwf|].
  destruct (create_posts_value "Task" task Hwf) as [Hreq Hrun].
  split; [exact Hreq|].
  exact (Hrun unit (always answer) tt tt _ _ eq_refl eq_refl).
Defined.

Lemma append_cancel_l (s a b : string) : s ++ a = s ++ b -> a = b.
Proof.
  induction s as [|c s IH]; simpl; intros H; [exact H|].
  inversion H. now apply IH.
Qed.

(** C3. With a [null] name [updateDoc] puts to the resource path ending in
    the segment [null], and [deleteDoc] deletes the path ending in [null]
    for a [null] name and in [undefined] for an omitted one; none of these
    is the path with an empty last segment, which is what [getDoc] requests
    for an omitted name. *)
Theorem null_name_is_printed :
  forall (doctype : string) (value : JsVal),
    first_request (updateDoc doctype JNull value) =
      Some {| method := PUT; url := "/api/resource/" ++ doctype ++ "/null";
              params := None; body := Some (spread [] value) |} /\
    first_request (deleteDoc doctype JNull) =
      Some {| method := DELETE; url := "/api/resource/" ++ doctype ++ "/null";
              params := None; body := None |} /\
    first_request (deleteDoc doctype JUndefined) =
      Some {| method := DELETE; url := "/api/resource/" ++ doctype ++ "/undefined";
              params := None; body := None |} /\
    first_request (getDoc doctype JUndefined) =
      Some {| method := GET; url := "/api/resource/" ++ doctype ++ "/";
              params := None; body := None |} /\
    "/api/resource/" ++ doctype ++ "/null" <> "/api/resource/" ++ doctype ++ "/" /\
    "/api/resource/" ++ doctype ++ "/undefined" <> "/api/resource/" ++ doctype ++ "/".
Proof.
  intros doctype value. repeat split.
  - intros H. apply append_cancel_l, append_cancel_l in H. discriminate.
  - intros H. apply append_cancel_l, append_cancel_l in H. discriminate.
Qed.

(** C4. [getCount] requests [/api/method/frappe.client.get_count] with the
    parameters [doctype] and [filters], where [filters] is the empty array
    when no filters are given and the JSON text of the filters when they
    are; [cache] and [debug] are parameters only when the flags are true,
    and then hold [true]; omitted flags count as false.  On a fulfilled
    request the method resolves to the [message] field of the body. *)
Theorem count_request :
  forall (doctype : string) (filters : option (list JsVal)) (cache debug : bool),
    let sent :=
      ([ ("doctype", JStr doctype);
         ("filters", match filters with
                     | None => JArr []
                     | Some items => JStr (json_text (JArr items))
                     end) ]
       ++ (if cache then [("cache", JBool true)] else [])
       ++ (if debug then [("debug", JBool true)] else []))%list in
    let req := {| method := GET; url := "/api/method/frappe.client.get_count";
                  params := Some sent; body := None |} in
    first_request (getCount doctype (optional_array filters) (JBool cache) (JBool debug))
      = Some req /\
    (cache = false -> obj_get "cache" sent = None) /\
    (debug = false -> obj_get "debug" sent = None) /\
    getCount doctype (optional_array filters) JUndefined JUndefined =
      getCount doctype (optional_array filters) (JBool false) (JBool false) /\
    forall (W : Type) (axios : AxiosRequest -> W -> AxiosResult * W)
           (w w' : W) (res : AxiosResponse) (v : JsVal),
      axios req w = (Fulfilled res, w') ->
      get_prop (data res) "message" = Normal v ->
      run axios (getCount doctype (optional_array filters) (JBool cache) (JBool debug)) w
        = (Resolves v, [req], w').
Proof.
  intros doctype filters cache debug sent req.
  assert (Hreq : first_request
                   (invoke (CallGetCount doctype (optional_array filters)
                              (JBool cache) (JBool debug))) = Some req).
  { subst req sent. destruct filters, cache, debug; reflexivity. }
  split; [exact Hreq|].
  split; [intros ->; subst sent; destruct filters, debug; reflexivity|].
  split; [intros ->; subst sent; destruct filters, cache; reflexivity|].
  split; [reflexivity|].
  intros W axios w w' res v Hax Hv.
  change (getCount doctype (optional_array filters) (JBool cache) (JBool debug))
    with (invoke (CallGetCount doctype (optional_array filters) (JBool cache) (JBool debug))).
  rewrite (invoke_fulfilled _ _ _ _ _ _ Hreq Hax). simpl. now rewrite Hv.
Qed.

Lemma count_request_witness :
  let req := {| method := GET; url := "/api/method/frappe.client.get_count";
                params := Some [("doctype", JStr "Task"); ("filters", JArr [])];
                body := None |} in
  let answer := Fulfilled (ok (JObj [("message", JNum 42)])) in
  (always answer req tt = (answer, tt) /\
   get_prop (data (ok (JObj [("message", JNum 42)]))) "message" = Normal (JNum 42)) /\
  first_request (getCount "Task" JUndefined JUndefined JUndefined) = Some req /\
  run (always answer) (getCount "Task" JUndefined JUndefined JUndefined) tt
    = (Resolves (JNum 42), [req], tt).
Proof.
  intros req answer. split; [split; reflexivity|].
  destruct (count_request "Task" None false false) as (Hreq & _ & _ & Hdef & Hrun).
  simpl optional_array in *. rewrite Hdef. split; [exact Hreq|].
  exact (Hrun unit (always answer) tt tt _ _ eq_refl eq_refl).
Defined.

(** *** The parameters of [getDocList] *)

Lemma truthy_not_nullish (v : JsVal) : truthy v = true -> nullish v = false.
Proof. destruct v; simpl; congruence. Qed.

(** Reading a property of a truthy value never throws. *)
Lemma get_prop_truthy (v : JsVal) (k : string) :
  truthy v = true -> exists x, get_prop v k = Normal x.
Proof. intros H. apply get_prop_defined. now apply truthy_not_nullish. Qed.

(** With [args] given, the parameters are the eight entries of the object
    literal, provided the sort string can be built. *)
Lemma getDocList_params_given (args : JsVal) :
  truthy args = true ->
  exists fields filters orFilters orderBy limit limit_start groupBy asDict,
    get_prop args "fields" = Normal fields /\
    get_prop args "filters" = Normal filters /\
    get_prop args "orFilters" = Normal orFilters /\
    get_prop args "orderBy" = Normal orderBy /\
    get_prop args "limit" = Normal limit /\
    get_prop args "limit_start" = Normal limit_start /\
    get_prop args "groupBy" = Normal groupBy /\
    get_prop args "asDict" = Normal asDict /\
    getDocList_params args =
      (orderByString <-
         (if truthy orderBy then
            field <- get_prop orderBy "field" ;;
            f <- ToString field ;;
            order <- get_prop orderBy "order" ;;
            o <- ToString (coalesce order (JStr "asc")) ;;
            Normal (f ++ " " ++ o)
          else Normal "") ;;
       Normal [ ("fields", if truthy fields then JSON_stringify fields else JUndefined);
                ("filters", if truthy filters then JSON_stringify filters else JUndefined);
                ("or_filters",
                 if truthy orFilters then JSON_stringify orFilters else JUndefined);
                ("order_by", JStr orderByString);
                ("group_by", groupBy);
                ("limit", limit);
                ("limit_start", limit_start);
                ("as_dict", default_param asDict (JBool true)) ]).
Proof.
  intros Ht. unfold getDocList_params. rewrite Ht.
  destruct (get_prop_truthy args "fields" Ht) as [fields ->].
  destruct (get_prop_truthy args "filters" Ht) as [filters ->].
  destruct (get_prop_truthy args "orFilters" Ht) as [orFilters ->].
  destruct (get_prop_truthy args "orderBy" Ht) as [orderBy ->].
  destruct (get_prop_truthy args "limit" Ht) as [limit ->].
  destruct (get_prop_truthy args "limit_start" Ht) as [limit_start ->].
  destruct (get_prop_truthy args "groupBy" Ht) as [groupBy ->].
  destruct (get_prop_truthy args "asDict" Ht) as [asDict ->].
  exists fields, filters, orFilters, orderBy, limit, limit_start, groupBy, asDict.
  repeat split; reflexivity.
Qed.

(** C5. When the arguments of [getDocList] hold an [orderBy] with a field
    name, the [order_by] parameter is the one string made of the field, a
    space and the direction, the direction being [asc] when [order] is
    omitted; [fields], [filters] and [orFilters] given as arrays are sent
    as their JSON text under [fields], [filters] and [or_filters]. *)
Theorem list_order_by :
  forall (doctype : string) (args orderBy : Obj) (field dir : string),
    obj_get "orderBy" args = Some (JObj orderBy) ->
    obj_get "field" orderBy = Some (JStr field) ->
    direction orderBy = Some dir ->
    exists sent : Obj,
      first_request (getDocList doctype (JObj args)) =
        Some {| method := GET; url := "/api/resource/" ++ doctype;
                params := Some sent; body := None |} /\
      obj_get "order_by" sent = Some (JStr (field ++ " " ++ dir)) /\
      (obj_get "order" orderBy = None -> dir = "asc") /\
      (forall items, obj_get "fields" args = Some (JArr items) ->
         obj_get "fields" sent = Some (JStr (json_text (JArr items)))) /\
      (forall items, obj_get "filters" args = Some (JArr items) ->
         obj_get "filters" sent = Some (JStr (json_text (JArr items)))) /\
      (forall items, obj_get "orFilters" args = Some (JArr items) ->
         obj_get "or_filters" sent = Some (JStr (json_text (JArr items)))).
Proof.
  intros doctype args orderBy field dir Hob Hfield Hdir.
  assert (Hstr : (order <- get_prop (JObj orderBy) "order" ;;
                  o <- ToString (coalesce order (JStr "asc")) ;;
                  Normal (field ++ " " ++ o)) = Normal (field ++ " " ++ dir)).
  { unfold direction in Hdir. simpl.
    destruct (obj_get "order" orderBy) as [[| | | | d | |]|]; simpl in *;
      inversion Hdir; subst; reflexivity. }
  eexists. split.
  - unfold getDocList, getDocList_params. simpl.
    rewrite Hob. simpl. rewrite Hfield. simpl. simpl in Hstr. rewrite Hstr.
    simpl. reflexivity.
  - split; [reflexivity|].
    split.
    { intros Hnone. unfold direction in Hdir. rewrite Hnone in Hdir. congruence. }
    repeat split; intros items Hitems; simpl; rewrite Hitems; reflexivity.
Qed.

Lemma list_order_by_witness :
  let args := [ ("fields", JArr [JStr "name"; JStr "age"]);
                ("orderBy", JObj [("field", JStr "age")]) ] in
  (obj_get "orderBy" args = Some (JObj [("field", JStr "age")]) /\
   obj_get "field" [("field", JStr "age")] = Some (JStr "age") /\
   direction [("field", JStr "age")] = Some "asc") /\
  exists sent : Obj,
    first_request (getDocList "User" (JObj args)) =
      Some {| method := GET; url := "/api/resource/User";
              params := Some sent; body := None |} /\
    obj_get "order_by" sent = Some (JStr "age asc") /\
    obj_get "fields" sent =
      Some (JStr ("[" ++ json_quote "name" ++ "," ++ json_quote "age" ++ "]")).
Proof.
  intros args. split; [repeat split|].
  destruct (list_order_by "User" args [("field", JStr "age")] "age" "asc"
              eq_refl eq_refl eq_refl) as (sent & Hreq & Horder & _ & Hfields & _).
  exists sent. split; [exact Hreq|]. split; [exact Horder|].
  exact (Hfields _ eq_refl).
Defined.

(** C9. When [getDocList] is given arguments without an [orderBy], the
    parameters still hold [order_by], bound to the empty string, so it is
    among the parameters that carry a value; an absent [fields], [filters]
    or [orFilters] is bound to [undefined] instead and carries none. *)
Theorem list_order_by_empty :
  forall (doctype : string) (args : JsVal),
    truthy args = true ->
    get_prop args "orderBy" = Normal JUndefined ->
    exists sent : Obj,
      first_request (getDocList doctype args) =
        Some {| method := GET; url := "/api/resource/" ++ doctype;
                params := Some sent; body := None |} /\
      obj_get "order_by" sent = Some (JStr "") /\
      In ("order_by", JStr "") (defined_params sent) /\
      (get_prop args "fields" = Normal JUndefined ->
         obj_get "fields" sent = Some JUndefined /\
         ~ In "fields" (map fst (defined_params sent))) /\
      (get_prop args "filters" = Normal JUndefined ->
         obj_get "filters" sent = Some JUndefined /\
         ~ In "filters" (map fst (defined_params sent))) /\
      (get_prop args "orFilters" = Normal JUndefined ->
         obj_get "or_filters" sent = Some JUndefined /\
         ~ In "or_filters" (map fst (defined_params sent))).
Proof.
  intros doctype args Ht Hob.
  destruct (getDocList_params_given args Ht)
    as (fields & filters & orFilters & orderBy & limit & limit_start & groupBy
        & asDict & Hfields & Hfilters & Hor & Horder & _ & _ & _ & _ & Hparams).
  rewrite Hob in Horder. inversion Horder; subst orderBy. simpl in Hparams.
  eexists. split; [unfold getDocList; rewrite Hparams; reflexivity|].
  split; [reflexivity|].
  split.
  { apply filter_In. split; [simpl; tauto|reflexivity]. }
  assert (Hundef : forall k (sent : Obj),
            obj_get k sent = Some JUndefined ->
            NoDup (map fst sent) ->
            ~ In k (map fst (defined_params sent))).
  { intros k sent. unfold defined_params.
    induction sent as [|[k0 v0] rest IH]; simpl; intros Hget Hnd Hin; [exact Hin|].
    inversion Hnd as [|? ? Hnotin Hnd']; subst.
    destruct (String.eqb_spec k0 k) as [->|Hne].
    - inversion Hget; subst v0. simpl in Hin.
      apply Hnotin. apply in_map_iff in Hin. destruct Hin as ([k1 v1] & Hk & Hin).
      apply filter_In in Hin. simpl in Hk. subst k1.
      apply in_map_iff. exists (k, v1). split; [reflexivity|tauto].
    - destruct (negb (is_undefined v0)); simpl in Hin.
      + destruct Hin as [Heq|Hin]; [contradiction|]. now apply IH.
      + now apply IH. }
  assert (Hnd : forall a b c d e f g h : JsVal,
            NoDup (map fst [ ("fields", a); ("filters", b); ("or_filters", c);
                             ("order_by", d); ("group_by", e); ("limit", f);
                             ("limit_start", g); ("as_dict", h) ])).
  { intros. simpl.
    repeat (constructor; [simpl; intuition discriminate|]). constructor. }
  split; [|split].
  - intros Habsent. rewrite Habsent in Hfields. inversion Hfields; subst fields.
    split; [reflexivity|apply Hundef; [reflexivity|apply Hnd]].
  - intros Habsent. rewrite Habsent in Hfilters. inversion Hfilters; subst filters.
    split; [reflexivity|apply Hundef; [reflexivity|apply Hnd]].
  - intros Habsent. rewrite Habsent in Hor. inversion Hor; subst orFilters.
    split; [reflexivity|apply Hundef; [reflexivity|apply Hnd]].
Qed.

Lemma list_order_by_empty_witness :
  let args := JObj [("limit", JNum 20)] in
  (truthy args = true /\ get_prop args "orderBy" = Normal JUndefined /\
   get_prop args "fields" = Normal JUndefined) /\
  exists sent : Obj,
    first_request (getDocList "Task" args) =
      Some {| method := GET; url := "/api/resource/Task";
              params := Some sent; body := None |} /\
    In ("order_by", JStr "") (defined_params sent) /\
    ~ In "fields" (map fst (defined_params sent)).
Proof.
  intros args. split; [repeat split|].
  destruct (list_order_by_empty "Task" args eq_refl eq_refl)
    as (sent & Hreq & _ & Hin & Hfields & _).
  exists sent. split; [exact Hreq|]. split; [exact Hin|].
  exact (proj2 (Hfields eq_refl)).
Defined.

(** *** [getLastDoc] *)

(** Running [await p] runs [p] and, when it resolves, the continuation. *)
Lemma run_await {W : Type} (axios : AxiosRequest -> W -> AxiosResult * W)
      (p : Promise) (k : JsVal -> Promise) (w : W) :
  run axios (await p k) w =
  match run axios p w with
  | (Resolves v, calls, w1) =>
      let '(o, calls', w2) := run axios (k v) w1 in (o, (calls ++ calls')%list, w2)
  | (Rejects e, calls, w1) => (Rejects e, calls, w1)
  end.
Proof.
  revert w. induction p as [v|e|r h IH]; intros w; simpl.
  - destruct (run axios (k v) w) as [[o calls] w2]. reflexivity.
  - reflexivity.
  - destruct (axios r w) as [a w1]. rewrite IH.
    destruct (run axios (h a) w1) as [[[v|e] calls] w2]; [|reflexivity].
    destruct (run axios (k v) w2) as [[o calls'] w3]. reflexivity.
Qed.

Lemma in_keys_set (x k : string) (v : JsVal) (o : Obj) :
  In x (map fst (obj_set k v o)) -> x = k \/ In x (map fst o).
Proof.
  induction o as [|[k0 v0] rest IH]; simpl.
  - intros [<-|[]]. now left.
  - destruct (String.eqb_spec k0 k) as [->|Hne]; simpl.
    + intros [<-|Hin]; [now left|right; now right].
    + intros [<-|Hin]; [right; now left|].
      destruct (IH Hin) as [->|Hin']; [now left|right; now right].
Qed.

(** Writing a property keeps an object well formed. *)
Lemma well_formed_set (k : string) (v : JsVal) (o : Obj) :
  well_formed o -> well_formed (obj_set k v o).
Proof.
  unfold well_formed.
  induction o as [|[k0 v0] rest IH]; simpl; intros Hnd.
  - constructor; [intros []|constructor].
  - inversion Hnd as [|? ? Hnotin Hnd']; subst.
    destruct (String.eqb_spec k0 k) as [->|Hne]; simpl.
    + now constructor.
    + constructor; [|now apply IH].
      intros Hin. destruct (in_keys_set _ _ _ _ Hin) as [->|Hin']; contradiction.
Qed.

Lemma well_formed_spread (target : Obj) (src : JsVal) :
  well_formed target -> well_formed (spread target src).
Proof.
  unfold spread. generalize (own_props src) as props. intros props.
  revert target. induction props as [|[k v] rest IH]; intros target Hwf; simpl.
  - exact Hwf.
  - apply IH. now apply well_formed_set.
Qed.

Lemma well_formed_default_query : well_formed default_query.
Proof. unfold well_formed. simpl. constructor; [intros []|constructor]. Qed.

(** The argument [getLastDoc] passes on is built in three stages: the
    default, the caller's arguments over it, and the two forced entries. *)
Lemma getLastDoc_query_stages (args : JsVal) :
  getLastDoc_query args =
  obj_set "fields" (JArr [JStr "name"])
    (obj_set "limit" (JNum 1)
       (if truthy args then spread default_query args else default_query)).
Proof.
  unfold getLastDoc_query. fold default_query.
  rewrite (spread_copy default_query well_formed_default_query).
  destruct (truthy args).
  - rewrite spread_copy; [reflexivity|].
    apply well_formed_spread, well_formed_default_query.
  - now rewrite (spread_copy default_query well_formed_default_query).
Qed.

Lemma getLastDoc_found_first (to_number_gt0 : string -> bool) (doctype : string)
      (first : JsVal) (rest : list JsVal) (name : JsVal) :
  get_prop first "name" = Normal name ->
  getLastDoc_found to_number_gt0 doctype (JArr (first :: rest)) = getDoc doctype name.
Proof.
  intros Hname. unfold getLastDoc_found, async.
  change (get_prop (JArr (first :: rest)) "length")
    with (Normal (A := JsVal) (JNum (Z.of_nat (S (List.length rest))))).
  change (get_prop (JArr (first :: rest)) "0") with (Normal first).
  cbn [bind gt_zero].
  replace (0 <? Z.of_nat (S (List.length rest)))%Z with true
    by (symmetry; apply Z.ltb_lt; lia).
  now rewrite Hname.
Qed.

(** C2. [getLastDoc] first runs [getDocList] on the query made of the
    default [{orderBy: {field: "creation", order: "desc"}}], the caller's
    arguments merged over it property by property (so a caller's [orderBy]
    replaces the default one whole), and [limit = 1] and
    [fields = ["name"]] written over whatever the caller gave; when that
    list has a first element it then runs [getDoc] on the element's [name]
    and settles as that call does. *)
Theorem last_doc_query :
  forall (to_number_gt0 : string -> bool) (doctype : string) (args : JsVal),
    let query := getLastDoc_query args in
    (forall (W : Type) (axios : AxiosRequest -> W -> AxiosResult * W) (w : W),
        run axios (getLastDoc to_number_gt0 doctype args) w =
        match run axios (getDocList doctype (JObj query)) w with
        | (Resolves list, calls, w1) =>
            let '(o, calls', w2) :=
              run axios (getLastDoc_found to_number_gt0 doctype list) w1 in
            (o, (calls ++ calls')%list, w2)
        | (Rejects e, calls, w1) => (Rejects e, calls, w1)
        end) /\
    obj_get "limit" query = Some (JNum 1) /\
    obj_get "fields" query = Some (JArr [JStr "name"]) /\
    (truthy args = false ->
       query = [ ("orderBy", JObj [("field", JStr "creation"); ("order", JStr "desc")]);
                 ("limit", JNum 1);
                 ("fields", JArr [JStr "name"]) ]) /\
    (forall given : Obj, args = JObj given -> well_formed given ->
       (forall k, k <> "limit" -> k <> "fields" ->
          obj_get k query = match obj_get k given with
                            | Some v => Some v
                            | None => obj_get k default_query
                            end) /\
       (forall orderBy, obj_get "orderBy" given = Some orderBy ->
          obj_get "orderBy" query = Some orderBy)) /\
    (forall (W : Type) (axios : AxiosRequest -> W -> AxiosResult * W) (w w1 : W)
            (calls : list AxiosRequest) (first name : JsVal) (rest : list JsVal),
        run axios (getDocList doctype (JObj query)) w
          = (Resolves (JArr (first :: rest)), calls, w1) ->
        get_prop first "name" = Normal name ->
        run axios (getLastDoc to_number_gt0 doctype args) w =
        (let '(o, calls', w2) := run axios (getDoc doctype name) w1 in
         (o, (calls ++ calls')%list, w2))).
Proof.
  intros to_number_gt0 doctype args query.
  assert (Hrun : forall (W : Type) (axios : AxiosRequest -> W -> AxiosResult * W) (w : W),
        run axios (getLastDoc to_number_gt0 doctype args) w =
        match run axios (getDocList doctype (JObj query)) w with
        | (Resolves list, calls, w1) =>
            let '(o, calls', w2) :=
              run axios (getLastDoc_found to_number_gt0 doctype list) w1 in
            (o, (calls ++ calls')%list, w2)
        | (Rejects e, calls, w1) => (Rejects e, calls, w1)
        end).
  { intros W axios w. unfold getLastDoc. apply run_await. }
  assert (Hother : forall given : Obj, args = JObj given -> well_formed given ->
            forall k, k <> "limit" -> k <> "fields" ->
              obj_get k query = match obj_get k given with
                                | Some v => Some v
                                | None => obj_get k default_query
                                end).
  { intros given -> Hwf k Hl Hf. subst query.
    rewrite getLastDoc_query_stages. simpl truthy. cbv iota.
    rewrite !obj_get_set_ne by congruence.
    now apply obj_get_spread. }
  split; [exact Hrun|].
  split.
  { subst query. rewrite getLastDoc_query_stages.
    rewrite obj_get_set_ne by discriminate. apply obj_get_set_eq. }
  split.
  { subst query. rewrite getLastDoc_query_stages. apply obj_get_set_eq. }
  split.
  { intros Hfalse. subst query. rewrite getLastDoc_query_stages, Hfalse. reflexivity. }
  split.
  - intros given Hargs Hwf.
    split; [now apply Hother|].
    intros orderBy Hob.
    rewrite (Hother given Hargs Hwf "orderBy") by discriminate.
    now rewrite Hob.
  - intros W axios w w1 calls first name rest Hlist Hname.
    rewrite Hrun, Hlist.
    now rewrite (getLastDoc_found_first _ _ _ _ _ Hname).
Qed.

Lemma last_doc_query_witness :
  let given := [ ("orderBy", JObj [("field", JStr "age")]);
                 ("limit", JNum 50);
                 ("fields", JArr [JStr "subject"]) ] in
  let listed := {| method := GET; url := "/api/resource/Task";
                   params := Some [ ("fields", JStr (json_text (JArr [JStr "name"])));
                                    ("filters", JUndefined);
                                    ("or_filters", JUndefined);
                                    ("order_by", JStr "age asc");
                                    ("group_by", JUndefined);
                                    ("limit", JNum 1);
                                    ("limit_start", JUndefined);
                                    ("as_dict", JBool true) ];
                   body := None |} in
  let fetched := {| method := GET; url := "/api/resource/Task/TASK-0007";
                    params := None; body := None |} in
  let document := JObj [("name", JStr "TASK-0007"); ("subject", JStr "X")] in
  let server :=
    first_then (Fulfilled (ok (JObj [("data", JArr [JObj [("name", JStr "TASK-0007")]])])))
               (Fulfilled (ok (JObj [("data", document)]))) in
  (well_formed given /\
   run server (getDocList "Task" (JObj (getLastDoc_query (JObj given)))) 0
     = (Resolves (JArr [JObj [("name", JStr "TASK-0007")]]), [listed], 1) /\
   get_prop (JObj [("name", JStr "TASK-0007")]) "name" = Normal (JStr "TASK-0007")) /\
  obj_get "orderBy" (getLastDoc_query (JObj given)) = Some (JObj [("field", JStr "age")]) /\
  run server (getLastDoc simple_gt0 "Task" (JObj given)) 0
    = (Resolves document, [listed; fetched], 2).
Proof.
  intros given listed fetched document server.
  assert (Hwf : well_formed given).
  { unfold well_formed. simpl.
    repeat (constructor; [simpl; intuition discriminate|]). constructor. }
  destruct (last_doc_query simple_gt0 "Task" (JObj given))
    as (_ & _ & _ & _ & Hmerge & Hfirst).
  split; [split; [exact Hwf|split; reflexivity]|].
  split.
  - exact (proj2 (Hmerge given eq_refl Hwf) _ eq_refl).
  - rewrite (Hfirst nat server 0 1 [listed] (JObj [("name", JStr "TASK-0007")])
               (JStr "TASK-0007") [] eq_refl eq_refl).
    reflexivity.
Defined.

(** C7. When the list that [getDocList] resolves to inside [getLastDoc] is
    the empty array, [getLastDoc] resolves to the empty object, without a
    further request. *)
Theorem last_doc_empty :
  forall (to_number_gt0 : string -> bool) (doctype : string) (args : JsVal)
         (W : Type) (axios : AxiosRequest -> W -> AxiosResult * W) (w w1 : W)
         (calls : list AxiosRequest),
    run axios (getDocList doctype (JObj (getLastDoc_query args))) w
      = (Resolves (JArr []), calls, w1) ->
    run axios (getLastDoc to_number_gt0 doctype args) w = (Resolves (JObj []), calls, w1).
Proof.
  intros to_number_gt0 doctype args W axios w w1 calls Hlist.
  unfold getLastDoc. rewrite run_await, Hlist. simpl.
  now rewrite app_nil_r.
Qed.

Lemma last_doc_empty_witness :
  let listed := {| method := GET; url := "/api/resource/Task";
                   params := Some [ ("fields", JStr (json_text (JArr [JStr "name"])));
                                    ("filters", JUndefined);
                                    ("or_filters", JUndefined);
                                    ("order_by", JStr "creation desc");
                                    ("group_by", JUndefined);
                                    ("limit", JNum 1);
                                    ("limit_start", JUndefined);
                                    ("as_dict", JBool true) ];
                   body := None |} in
  let server := always (Fulfilled (ok (JObj [("data", JArr [])]))) in
  run server (getDocList "Task" (JObj (getLastDoc_query JUndefined))) tt
    = (Resolves (JArr []), [listed], tt) /\
  run server (getLastDoc simple_gt0 "Task" JUndefined) tt
    = (Resolves (JObj []), [listed], tt).
Proof.
  intros listed server. split; [reflexivity|].
  exact (last_doc_empty simple_gt0 "Task" JUndefined unit server tt tt [listed] eq_refl).
Defined.

(** *** Responses the handlers cannot read *)

(** X3. A request that fails without a response (no [error.response])
    makes the [catch] handler of each of the six methods itself throw: the
    method rejects with a [TypeError], not with an error object. *)
Lemma no_response_type_error {W : Type} (axios : AxiosRequest -> W -> AxiosResult * W)
      (c : Call) (req : AxiosRequest) (w w' : W) :
  first_request (invoke c) = Some req ->
  axios req w = (Failed None, w') ->
  run axios (invoke c) w = (Rejects TypeError, [req], w').
Proof.
  intros Hreq Hax. now rewrite (invoke_rejects _ _ _ _ _ _ Hreq Hax).
Qed.

(** X4. An error response whose body is [null] also makes each of the six
    methods reject with a [TypeError] instead of an error object. *)
Lemma null_body_type_error {W : Type} (axios : AxiosRequest -> W -> AxiosResult * W)
      (c : Call) (req : AxiosRequest) (w w' : W) (r : AxiosResponse) :
  first_request (invoke c) = Some req ->
  axios req w = (Failed (Some r), w') ->
  data r = JNull ->
  run axios (invoke c) w = (Rejects TypeError, [req], w').
Proof.
  intros Hreq Hax Hnull. rewrite (invoke_rejects _ _ _ _ _ _ Hreq Hax).
  unfold error_object, message_rule. rewrite Hnull.
  destruct (takes_server_message c); reflexivity.
Qed.

(* ===================================================================== *)
(** ** Further properties of the methods                                 *)
(* ===================================================================== *)

(** Once the axios promise has settled, the handlers settle the method
    without a further call. *)
Lemma run_then_catch {W : Type} (axios : AxiosRequest -> W -> AxiosResult * W)
      (f : AxiosResponse -> Completion JsVal) (g : option AxiosResponse -> Thrown)
      (a : AxiosResult) (w : W) :
  run axios (then_catch f g a) w =
  (match a with
   | Fulfilled res =>
       match f res with
       | Normal v => Resolves v
       | Throw_TypeError => Rejects (g None)
       end
   | Failed response => Rejects (g response)
   end, [], w).
Proof. destruct a as [res|response]; simpl; [destruct (f res)|]; reflexivity. Qed.

(** A method either throws before calling axios, or makes the call its
    signature announces and continues with its handlers. *)
Lemma invoke_cases (c : Call) :
  invoke c = Rejected TypeError \/
  exists req,
    invoke c = Request req (then_catch (unwrap c) (error_object (message_rule c))) /\
    method req = verb c /\
    given (body req) = sends_body c /\
    given (params req) = sends_params c.
Proof.
  destruct c; simpl;
    unfold getDoc, getDocList, createDoc, updateDoc, deleteDoc, getCount, async;
    try match goal with
        | |- context [match ?x with Normal _ => _ | Throw_TypeError => _ end] => destruct x
        end;
    try (left; reflexivity);
    right; eexists; repeat split.
Qed.

Lemma run_invoke {W : Type} (axios : AxiosRequest -> W -> AxiosResult * W)
      (c : Call) (w : W) :
  run axios (invoke c) w = (Rejects TypeError, [], w) \/
  exists req o,
    first_request (invoke c) = Some req /\
    method req = verb c /\
    run axios (invoke c) w = (o, [req], snd (axios req w)).
Proof.
  destruct (invoke_cases c) as [->|(req & -> & Hverb & _)]; [left; reflexivity|].
  right. exists req. simpl. destruct (axios req w) as [a w1].
  rewrite run_then_catch.
  eexists. split; [reflexivity|]. split; [exact Hverb|reflexivity].
Qed.

(** X1. The call a method makes uses the verb of its axios function; only
    [createDoc] and [updateDoc] carry a body, only [getDocList] and
    [getCount] carry a [params] object. *)
Theorem request_shape :
  forall (c : Call) (req : AxiosRequest),
    first_request (invoke c) = Some req ->
    method req = verb c /\
    given (body req) = sends_body c /\
    given (params req) = sends_params c.
Proof.
  intros c req Hreq.
  destruct (invoke_cases c) as [Hthrow|(req' & Hinv & Hshape)].
  - rewrite Hthrow in Hreq. discriminate.
  - rewrite Hinv in Hreq. simpl in Hreq. inversion Hreq; subst. exact Hshape.
Qed.

Lemma request_shape_witness :
  let c := CallUpdateDoc "Task" (JStr "TASK-0001") task in
  let req := {| method := PUT; url := "/api/resource/Task/TASK-0001"; params := None;
                body := Some [("subject", JStr "X")] |} in
  first_request (invoke c) = Some req /\
  method req = PUT /\ given (body req) = true /\ given (params req) = false.
Proof.
  intros c req. split; [reflexivity|].
  exact (request_shape c req eq_refl).
Defined.

(** X2. Whatever the server does, one of the six methods calls axios at
    most once; when it makes no call it has rejected with a [TypeError]
    before reaching axios.  [createDoc] and [getCount], which convert
    nothing to a string beforehand, always make their call. *)
Theorem at_most_one_request :
  forall (W : Type) (axios : AxiosRequest -> W -> AxiosResult * W) (c : Call) (w : W),
    (List.length (calls_made (run axios (invoke c) w)) <= 1)%nat /\
    (calls_made (run axios (invoke c) w) = [] ->
     run axios (invoke c) w = (Rejects TypeError, [], w)) /\
    (always_calls c = true ->
     List.length (calls_made (run axios (invoke c) w)) = 1%nat).
Proof.
  intros W axios c w.
  destruct (run_invoke axios c w) as [Hrun|(req & o & Hreq & _ & Hrun)].
  - rewrite Hrun. simpl. split; [lia|]. split; [reflexivity|].
    intros Halways. exfalso.
    destruct c; simpl in Halways; try discriminate;
      simpl in Hrun;
      match type of Hrun with
      | context [axios ?r w] => destruct (axios r w) as [a w1]
      end;
      rewrite run_then_catch in Hrun; discriminate.
  - rewrite Hrun. simpl. split; [lia|]. split; [discriminate|reflexivity].
Qed.

Lemma at_most_one_request_witness :
  let unprintable := JObj [("toString", JNull)] in
  (calls_made (run (always unreachable) (invoke (CallGetDoc "Task" unprintable)) tt) = [] /\
   always_calls (CallCreateDoc "Task" task) = true) /\
  run (always unreachable) (invoke (CallGetDoc "Task" unprintable)) tt
    = (Rejects TypeError, [], tt) /\
  List.length (calls_made (run (always unreachable) (invoke (CallCreateDoc "Task" task)) tt))
    = 1%nat.
Proof.
  intros unprintable. split; [split; reflexivity|].
  split.
  - exact (proj1 (proj2 (at_most_one_request unit (always unreachable)
                           (CallGetDoc "Task" unprintable) tt)) eq_refl).
  - exact (proj2 (proj2 (at_most_one_request unit (always unreachable)
                           (CallCreateDoc "Task" task) tt)) eq_refl).
Defined.

Lemma no_response_type_error_witness :
  let c := CallGetDoc "Task" (JStr "TASK-0001") in
  let req := {| method := GET; url := "/api/resource/Task/TASK-0001";
                params := None; body := None |} in
  (first_request (invoke c) = Some req /\
   always unreachable req tt = (Failed None, tt)) /\
  run (always unreachable) (invoke c) tt = (Rejects TypeError, [req], tt).
Proof.
  intros c req. split; [split; reflexivity|].
  exact (no_response_type_error (always unreachable) c req tt tt eq_refl eq_refl).
Defined.

Lemma null_body_type_error_witness :
  let c := CallGetCount "Task" JUndefined JUndefined JUndefined in
  let req := {| method := GET; url := "/api/method/frappe.client.get_count";
                params := Some [("doctype", JStr "Task"); ("filters", JArr [])];
                body := None |} in
  (first_request (invoke c) = Some req /\
   always (Failed (Some empty_error)) req tt = (Failed (Some empty_error), tt) /\
   data empty_error = JNull) /\
  run (always (Failed (Some empty_error))) (invoke c) tt = (Rejects TypeError, [req], tt).
Proof.
  intros c req. split; [repeat split|].
  exact (null_body_type_error (always (Failed (Some empty_error))) c req tt tt
           empty_error eq_refl eq_refl eq_refl).
Defined.

(** X5. A fulfilled response whose body is [null] or [undefined] makes the
    five methods that read a field of the body reject with a [TypeError]
    (their [then] handler throws and the [catch] handler finds no
    [error.response]); [deleteDoc], which reads no field, resolves to that
    body. *)
Theorem fulfilled_without_body :
  forall (W : Type) (axios : AxiosRequest -> W -> AxiosResult * W)
         (c : Call) (req : AxiosRequest) (w w' : W) (res : AxiosResponse),
    first_request (invoke c) = Some req ->
    axios req w = (Fulfilled res, w') ->
    nullish (data res) = true ->
    run axios (invoke c) w =
    (match unwrapped_field c with
     | Some _ => Rejects TypeError
     | None => Resolves (data res)
     end, [req], w').
Proof.
  intros W axios c req w w' res Hreq Hax Hnull.
  rewrite (invoke_fulfilled _ _ _ _ _ _ Hreq Hax).
  destruct c; simpl; destruct (data res); try discriminate; reflexivity.
Qed.

Lemma fulfilled_without_body_witness :
  let c := CallGetDocList "Task" JUndefined in
  let req := {| method := GET; url := "/api/resource/Task";
                params := Some []; body := None |} in
  (first_request (invoke c) = Some req /\
   always (Fulfilled (ok JNull)) req tt = (Fulfilled (ok JNull), tt) /\
   nullish (data (ok JNull)) = true) /\
  run (always (Fulfilled (ok JNull))) (invoke c) tt = (Rejects TypeError, [req], tt).
Proof.
  intros c req. split; [repeat split|].
  exact (fulfilled_without_body unit (always (Fulfilled (ok JNull))) c req tt tt
           (ok JNull) eq_refl eq_refl eq_refl).
Defined.

(** *** Single documents *)

Lemma append_assoc (a b c : string) : (a ++ b) ++ c = a ++ (b ++ c).
Proof. induction a as [|x a IH]; simpl; [reflexivity|now rewrite IH]. Qed.

(** X6. [getDoc] makes one [GET] of [/api/resource/{doctype}/{docname}],
    the name taken as it is and the last segment empty when the name is
    omitted, and resolves to the [data] field of the response body. *)
Theorem get_doc_request :
  forall (doctype : string) (docname : option string),
    let req := {| method := GET;
                  url := "/api/resource/" ++ doctype ++ "/"
                         ++ match docname with Some name => name | None => "" end;
                  params := None; body := None |} in
    first_request (getDoc doctype (optional_string docname)) = Some req /\
    forall (W : Type) (axios : AxiosRequest -> W -> AxiosResult * W)
           (w w' : W) (res : AxiosResponse) (v : JsVal),
      axios req w = (Fulfilled res, w') ->
      get_prop (data res) "data" = Normal v ->
      run axios (getDoc doctype (optional_string docname)) w = (Resolves v, [req], w').
Proof.
  intros doctype docname req.
  assert (Hreq : first_request (invoke (CallGetDoc doctype (optional_string docname)))
                 = Some req) by (destruct docname; reflexivity).
  split; [exact Hreq|].
  intros W axios w w' res v Hax Hv.
  change (getDoc doctype (optional_string docname))
    with (invoke (CallGetDoc doctype (optional_string docname))).
  rewrite (invoke_fulfilled _ _ _ _ _ _ Hreq Hax). simpl. now rewrite Hv.
Qed.

Lemma get_doc_request_witness :
  let req := {| method := GET; url := "/api/resource/Task/"; params := None;
                body := None |} in
  let answer := Fulfilled (ok (JObj [("data", task)])) in
  (always answer req tt = (answer, tt) /\
   get_prop (data (ok (JObj [("data", task)]))) "data" = Normal task) /\
  run (always answer) (getDoc "Task" JUndefined) tt = (Resolves task, [req], tt).
Proof.
  intros req answer. split; [split; reflexivity|].
  exact (proj2 (get_doc_request "Task" None) unit (always answer) tt tt _ _
           eq_refl eq_refl).
Defined.

(** X7. [updateDoc] with a string name makes one [PUT] of
    [/api/resource/{doctype}/{docname}] whose body is the value's own
    properties, and resolves to the [data] field of the response body. *)
Theorem update_doc_request :
  forall (doctype docname : string) (value : JsVal),
    well_formed (own_props value) ->
    let req := {| method := PUT;
                  url := "/api/resource/" ++ doctype ++ "/" ++ docname;
                  params := None; body := Some (own_props value) |} in
    first_request (updateDoc doctype (JStr docname) value) = Some req /\
    forall (W : Type) (axios : AxiosRequest -> W -> AxiosResult * W)
           (w w' : W) (res : AxiosResponse) (v : JsVal),
      axios req w = (Fulfilled res, w') ->
      get_prop (data res) "data" = Normal v ->
      run axios (updateDoc doctype (JStr docname) value) w = (Resolves v, [req], w').
Proof.
  intros doctype docname value Hwf req.
  assert (Hbody : spread [] value = own_props value).
  { unfold spread. now rewrite fold_set_fresh. }
  assert (Hreq : first_request (invoke (CallUpdateDoc doctype (JStr docname) value))
                 = Some req).
  { simpl. unfold updateDoc. simpl. now rewrite Hbody. }
  split; [exact Hreq|].
  intros W axios w w' res v Hax Hv.
  change (updateDoc doctype (JStr docname) value)
    with (invoke (CallUpdateDoc doctype (JStr docname) value)).
  rewrite (invoke_fulfilled _ _ _ _ _ _ Hreq Hax). simpl. now rewrite Hv.
Qed.

Lemma update_doc_request_witness :
  let req := {| method := PUT; url := "/api/resource/Task/TASK-0001"; params := None;
                body := Some [("subject", JStr "X")] |} in
  let answer := Fulfilled (ok (JObj [("data", task)])) in
  (well_formed (own_props task) /\ always answer req tt = (answer, tt) /\
   get_prop (data (ok (JObj [("data", task)]))) "data" = Normal task) /\
  run (always answer) (updateDoc "Task" (JStr "TASK-0001") task) tt
    = (Resolves task, [req], tt).
Proof.
  intros req answer.
  assert (Hwf : well_formed (own_props task)).
  { unfold well_formed. simpl. constructor; [simpl; tauto|constructor]. }
  split; [split; [exact Hwf|split; reflexivity]|].
  exact (proj2 (update_doc_request "Task" "TASK-0001" task Hwf) unit (always answer)
           tt tt _ _ eq_refl eq_refl).
Defined.

(** X8. Doctype and name go into the path as they are, without escaping:
    a name holding a slash gives the path of another doctype and name, and
    the list path of a doctype holding a slash is the document path of its
    two parts. *)
Theorem paths_are_not_escaped :
  forall (doctype left right : string),
    first_request (getDoc doctype (JStr (left ++ "/" ++ right))) =
    first_request (getDoc (doctype ++ "/" ++ left) (JStr right)) /\
    first_request (deleteDoc doctype (JStr (left ++ "/" ++ right))) =
    first_request (deleteDoc (doctype ++ "/" ++ left) (JStr right)) /\
    (forall req, first_request (getDocList (doctype ++ "/" ++ left) JUndefined) = Some req ->
                 forall got, first_request (getDoc doctype (JStr left)) = Some got ->
                             url req = url got).
Proof.
  intros doctype left right.
  assert (Hpath : "/api/resource/" ++ doctype ++ "/" ++ left ++ "/" ++ right =
                  "/api/resource/" ++ (doctype ++ "/" ++ left) ++ "/" ++ right).
  { f_equal. rewrite !append_assoc. reflexivity. }
  assert (Hget : forall d n, first_request (getDoc d (JStr n)) =
            Some {| method := GET; url := "/api/resource/" ++ d ++ "/" ++ n;
                    params := None; body := None |}) by reflexivity.
  assert (Hdel : forall d n, first_request (deleteDoc d (JStr n)) =
            Some {| method := DELETE; url := "/api/resource/" ++ d ++ "/" ++ n;
                    params := None; body := None |}) by reflexivity.
  assert (Hlist : forall d, first_request (getDocList d JUndefined) =
            Some {| method := GET; url := "/api/resource/" ++ d;
                    params := Some []; body := None |}) by reflexivity.
  split; [|split].
  - now rewrite !Hget, Hpath.
  - now rewrite !Hdel, Hpath.
  - intros req Hreq got Hgot. rewrite Hlist in Hreq. rewrite Hget in Hgot.
    inversion Hreq; inversion Hgot; subst; reflexivity.
Qed.

Lemma paths_are_not_escaped_witness :
  let listed := {| method := GET; url := "/api/resource/Task/TASK-0001";
                   params := Some []; body := None |} in
  let got := {| method := GET; url := "/api/resource/Task/TASK-0001";
                params := None; body := None |} in
  (first_request (getDocList ("Task" ++ "/" ++ "TASK-0001") JUndefined) = Some listed /\
   first_request (getDoc "Task" (JStr "TASK-0001")) = Some got) /\
  url listed = url got.
Proof.
  intros listed got. split; [split; reflexivity|].
  exact (proj2 (proj2 (paths_are_not_escaped "Task" "TASK-0001" ""))
           listed eq_refl got eq_refl).
Defined.

(** *** Lists *)

(** X9. Without arguments, or with arguments that are [null], [false],
    [0] or the empty string, [getDocList] makes one [GET] of
    [/api/resource/{doctype}] with an empty [params] object; it resolves to
    the [data] field of the response body, which is [undefined] when the
    body is an object without that field. *)
Theorem list_without_args :
  forall (doctype : string) (args : JsVal),
    truthy args = false ->
    let req := {| method := GET; url := "/api/resource/" ++ doctype;
                  params := Some []; body := None |} in
    first_request (getDocList doctype args) = Some req /\
    forall (W : Type) (axios : AxiosRequest -> W -> AxiosResult * W)
           (w w' : W) (res : AxiosResponse) (fields : Obj),
      axios req w = (Fulfilled res, w') ->
      data res = JObj fields ->
      run axios (getDocList doctype args) w =
        (Resolves (or_undefined (obj_get "data" fields)), [req], w').
Proof.
  intros doctype args Hfalsy req.
  assert (Hreq : first_request (invoke (CallGetDocList doctype args)) = Some req).
  { simpl. unfold getDocList, getDocList_params. rewrite Hfalsy. reflexivity. }
  split; [exact Hreq|].
  intros W axios w w' res fields Hax Hbody.
  change (getDocList doctype args) with (invoke (CallGetDocList doctype args)).
  rewrite (invoke_fulfilled _ _ _ _ _ _ Hreq Hax). simpl. now rewrite Hbody.
Qed.

Lemma list_without_args_witness :
  let req := {| method := GET; url := "/api/resource/Task"; params := Some [];
                body := None |} in
  let answer := Fulfilled (ok (JObj [("message", JStr "no data here")])) in
  (truthy JNull = false /\ always answer req tt = (answer, tt)) /\
  run (always answer) (getDocList "Task" JNull) tt = (Resolves JUndefined, [req], tt).
Proof.
  intros req answer. split; [split; reflexivity|].
  exact (proj2 (list_without_args "Task" JNull eq_refl) unit (always answer) tt tt _ _
           eq_refl eq_refl).
Defined.

(** The parameters of a request that [getDocList] got to make for an
    object of arguments. *)
Lemma getDocList_sent (doctype : string) (args : Obj) (req : AxiosRequest) :
  first_request (getDocList doctype (JObj args)) = Some req ->
  exists orderByString,
    req = {| method := GET; url := "/api/resource/" ++ doctype;
             params := Some
               [ ("fields", if truthy (or_undefined (obj_get "fields" args))
                            then JSON_stringify (or_undefined (obj_get "fields" args))
                            else JUndefined);
                 ("filters", if truthy (or_undefined (obj_get "filters" args))
                             then JSON_stringify (or_undefined (obj_get "filters" args))
                             else JUndefined);
                 ("or_filters", if truthy (or_undefined (obj_get "orFilters" args))
                                then JSON_stringify (or_undefined (obj_get "orFilters" args))
                                else JUndefined);
                 ("order_by", JStr orderByString);
                 ("group_by", or_undefined (obj_get "groupBy" args));
                 ("limit", or_undefined (obj_get "limit" args));
                 ("limit_start", or_undefined (obj_get "limit_start" args));
                 ("as_dict", default_param (or_undefined (obj_get "asDict" args))
                               (JBool true)) ];
             body := None |}.
Proof.
  unfold getDocList, getDocList_params, async. simpl.
  match goal with
  | |- context [if truthy ?ob then ?x else _] =>
      destruct (if truthy ob then x else Normal "") as [s|]
  end; simpl; intros H; inversion H; subst.
  exists s. reflexivity.
Qed.

(** X10. In a request [getDocList] makes for an object of arguments,
    [limit], [limit_start] and [groupBy] arrive unchanged as [limit],
    [limit_start] and [group_by]; [as_dict] is [true] when [asDict] is
    absent and is the given value otherwise, [false] included; and the
    parameters are always the same eight names. *)
Theorem list_passes_through :
  forall (doctype : string) (args : Obj) (req : AxiosRequest),
    first_request (getDocList doctype (JObj args)) = Some req ->
    exists sent : Obj,
      params req = Some sent /\
      map fst sent = [ "fields"; "filters"; "or_filters"; "order_by";
                       "group_by"; "limit"; "limit_start"; "as_dict" ] /\
      obj_get "limit" sent = Some (or_undefined (obj_get "limit" args)) /\
      obj_get "limit_start" sent = Some (or_undefined (obj_get "limit_start" args)) /\
      obj_get "group_by" sent = Some (or_undefined (obj_get "groupBy" args)) /\
      (obj_get "asDict" args = None -> obj_get "as_dict" sent = Some (JBool true)) /\
      (forall b, obj_get "asDict" args = Some (JBool b) ->
                 obj_get "as_dict" sent = Some (JBool b)).
Proof.
  intros doctype args req Hreq.
  destruct (getDocList_sent _ _ _ Hreq) as [s ->].
  eexists. split; [reflexivity|]. split; [reflexivity|].
  repeat split.
  - intros Hnone. simpl. now rewrite Hnone.
  - intros b Hb. simpl. now rewrite Hb.
Qed.

Lemma list_passes_through_witness :
  let args := [ ("limit", JNum 20); ("limit_start", JNum 40);
                ("groupBy", JStr "status"); ("asDict", JBool false) ] in
  first_request (getDocList "Task" (JObj args)) =
    Some {| method := GET; url := "/api/resource/Task";
            params := Some [ ("fields", JUndefined); ("filters", JUndefined);
                             ("or_filters", JUndefined); ("order_by", JStr "");
                             ("group_by", JStr "status"); ("limit", JNum 20);
                             ("limit_start", JNum 40); ("as_dict", JBool false) ];
            body := None |} /\
  exists sent : Obj,
    obj_get "limit" sent = Some (JNum 20) /\
    obj_get "limit_start" sent = Some (JNum 40) /\
    obj_get "group_by" sent = Some (JStr "status") /\
    obj_get "as_dict" sent = Some (JBool false).
Proof.
  intros args. split; [reflexivity|].
  destruct (list_passes_through "Task" args _ eq_refl)
    as (sent & _ & _ & Hl & Hs & Hg & _ & Hd).
  exists sent. split; [exact Hl|]. split; [exact Hs|]. split; [exact Hg|].
  exact (Hd false eq_refl).
Defined.

(** X11. An [orderBy] object that has no [field] still produces a sort
    string: the missing field is printed as [undefined], so [order_by] is
    [undefined] followed by a space and the direction. *)
Theorem list_order_by_without_field :
  forall (doctype : string) (args orderBy : Obj) (dir : string),
    obj_get "orderBy" args = Some (JObj orderBy) ->
    obj_get "field" orderBy = None ->
    direction orderBy = Some dir ->
    exists sent : Obj,
      first_request (getDocList doctype (JObj args)) =
        Some {| method := GET; url := "/api/resource/" ++ doctype;
                params := Some sent; body := None |} /\
      obj_get "order_by" sent = Some (JStr ("undefined " ++ dir)).
Proof.
  intros doctype args orderBy dir Hob Hfield Hdir.
  assert (Hstr : (order <- get_prop (JObj orderBy) "order" ;;
                  o <- ToString (coalesce order (JStr "asc")) ;;
                  Normal ("undefined" ++ " " ++ o)) = Normal ("undefined " ++ dir)).
  { unfold direction in Hdir. simpl.
    destruct (obj_get "order" orderBy) as [[| | | | d | |]|]; simpl in *;
      inversion Hdir; subst; reflexivity. }
  eexists. split.
  - unfold getDocList, getDocList_params. simpl.
    rewrite Hob. simpl. rewrite Hfield. simpl. simpl in Hstr. rewrite Hstr.
    simpl. reflexivity.
  - reflexivity.
Qed.

Lemma list_order_by_without_field_witness :
  let args := [("orderBy", JObj [("order", JStr "desc")])] in
  (obj_get "orderBy" args = Some (JObj [("order", JStr "desc")]) /\
   obj_get "field" [("order", JStr "desc")] = None /\
   direction [("order", JStr "desc")] = Some "desc") /\
  exists sent : Obj,
    first_request (getDocList "Task" (JObj args)) =
      Some {| method := GET; url := "/api/resource/Task";
              params := Some sent; body := None |} /\
    obj_get "order_by" sent = Some (JStr "undefined desc").
Proof.
  intros args. split; [repeat split|].
  exact (list_order_by_without_field "Task" args [("order", JStr "desc")] "desc"
           eq_refl eq_refl eq_refl).
Defined.

(** *** Thrown objects *)

Lemma obj_get_in (k : string) (o : Obj) :
  In k (map fst o) <-> obj_get k o <> None.
Proof.
  split.
  - induction o as [|[k0 v0] rest IH]; simpl; [intros []|].
    destruct (String.eqb_spec k0 k) as [->|Hne]; [discriminate|].
    intros [Heq|Hin]; [contradiction|now apply IH].
  - intros Hget. destruct (in_dec string_dec k (map fst o)) as [Hin|Hnot]; [exact Hin|].
    now rewrite obj_get_not_in in Hget.
Qed.

(** Every property name of the source is a property name of the copy. *)
Lemma spread_keeps_names (k : string) (target : Obj) (src : JsVal) :
  obj_get k (own_props src) <> None -> obj_get k (spread target src) <> None.
Proof.
  intros Hsrc. unfold spread. rewrite obj_get_fold_set.
  assert (Hrev : obj_get k (rev (own_props src)) <> None).
  { apply obj_get_in. rewrite map_rev. apply in_rev. rewrite rev_involutive.
    now apply obj_get_in. }
  destruct (obj_get k (rev (own_props src))); [discriminate|contradiction].
Qed.

(** X12. The [??] of the handlers replaces only [undefined] and [null]: a
    server [exception] that is the empty string stays the [exception] of
    the thrown object even when [exc_type] is given, and for [createDoc]
    and [updateDoc] an empty server [message] stays the message instead of
    the default text. *)
Theorem empty_strings_are_kept :
  forall (W : Type) (axios : AxiosRequest -> W -> AxiosResult * W)
         (c : Call) (req : AxiosRequest) (w w' : W) (r : AxiosResponse) (o : Obj),
    first_request (invoke c) = Some req ->
    axios req w = (Failed (Some r), w') ->
    data r = JObj o ->
    obj_get "exception" o = Some (JStr "") ->
    exists E : Obj,
      run axios (invoke c) w = (Rejects (ErrorObject E), [req], w') /\
      obj_get "exception" E = Some (JStr "") /\
      (takes_server_message c = true -> obj_get "message" o = Some (JStr "") ->
       obj_get "message" E = Some (JStr "")).
Proof.
  intros W axios c req w w' r o Hreq Hax Ho Hexc.
  assert (Hd : nullish (data r) = false) by now rewrite Ho.
  eexists. split.
  { rewrite (invoke_rejects _ _ _ _ _ _ Hreq Hax), (error_object_built _ _ Hd).
    reflexivity. }
  split.
  - rewrite obj_get_set_eq. rewrite Ho.
    unfold expected_exception, present. simpl. now rewrite Hexc.
  - intros Htakes Hmsg.
    rewrite obj_get_set_ne by discriminate. rewrite obj_get_set_eq, Ho.
    unfold expected_message, present. rewrite Htakes. simpl. now rewrite Hmsg.
Qed.

Lemma empty_strings_are_kept_witness :
  let c := CallCreateDoc "Task" task in
  let req := {| method := POST; url := "/api/resource/Task"; params := None;
                body := Some [("subject", JStr "X")] |} in
  let r := {| data := JObj [ ("exception", JStr ""); ("exc_type", JStr "ValidationError");
                             ("message", JStr "") ];
              status := 417; statusText := "EXPECTATION FAILED" |} in
  (first_request (invoke c) = Some req /\
   always (Failed (Some r)) req tt = (Failed (Some r), tt) /\
   obj_get "exception" [ ("exception", JStr ""); ("exc_type", JStr "ValidationError");
                         ("message", JStr "") ] = Some (JStr "")) /\
  exists E : Obj,
    run (always (Failed (Some r))) (invoke c) tt = (Rejects (ErrorObject E), [req], tt) /\
    obj_get "exception" E = Some (JStr "") /\
    obj_get "message" E = Some (JStr "").
Proof.
  intros c req r. split; [repeat split|].
  destruct (empty_strings_are_kept unit (always (Failed (Some r))) c req tt tt r _
              eq_refl eq_refl eq_refl eq_refl) as (E & Hrun & Hexc & Hmsg).
  exists E. split; [exact Hrun|]. split; [exact Hexc|].
  exact (Hmsg eq_refl eq_refl).
Defined.

(** X13. The object a method throws never has a property name twice, and
    it has every property name the server's body has, whatever the body
    (an object, an array, a string) looks like. *)
Theorem thrown_object_is_well_formed :
  forall (W : Type) (axios : AxiosRequest -> W -> AxiosResult * W)
         (c : Call) (req : AxiosRequest) (w w' : W) (r : AxiosResponse),
    first_request (invoke c) = Some req ->
    axios req w = (Failed (Some r), w') ->
    nullish (data r) = false ->
    exists E : Obj,
      run axios (invoke c) w = (Rejects (ErrorObject E), [req], w') /\
      well_formed E /\
      (forall k, obj_get k (own_props (data r)) <> None -> obj_get k E <> None).
Proof.
  intros W axios c req w w' r Hreq Hax Hd.
  eexists. split.
  { rewrite (invoke_rejects _ _ _ _ _ _ Hreq Hax), (error_object_built _ _ Hd).
    reflexivity. }
  split.
  - repeat apply well_formed_set. apply well_formed_spread. constructor.
  - intros k Hk. rewrite !obj_get_set.
    repeat match goal with
           | |- (if ?b then Some _ else _) <> None => destruct b; [discriminate|]
           end.
    now apply spread_keeps_names.
Qed.

Lemma thrown_object_is_well_formed_witness :
  let c := CallDeleteDoc "Task" (JStr "TASK-0001") in
  let req := {| method := DELETE; url := "/api/resource/Task/TASK-0001";
                params := None; body := None |} in
  let r := {| data := JStr "Bad Gateway"; status := 502; statusText := "BAD GATEWAY" |} in
  (first_request (invoke c) = Some req /\
   always (Failed (Some r)) req tt = (Failed (Some r), tt) /\
   nullish (data r) = false /\
   obj_get "10" (own_props (data r)) <> None) /\
  exists E : Obj,
    run (always (Failed (Some r))) (invoke c) tt = (Rejects (ErrorObject E), [req], tt) /\
    well_formed E /\ obj_get "10" E <> None.
Proof.
  intros c req r. split; [repeat split; discriminate|].
  destruct (thrown_object_is_well_formed unit (always (Failed (Some r))) c req tt tt r
              eq_refl eq_refl eq_refl) as (E & Hrun & Hwf & Hnames).
  exists E. split; [exact Hrun|]. split; [exact Hwf|].
  apply Hnames. discriminate.
Defined.

(** *** More on [getLastDoc] *)

Lemma query_limit (args : JsVal) :
  obj_get "limit" (getLastDoc_query args) = Some (JNum 1).
Proof.
  rewrite getLastDoc_query_stages, obj_get_set_ne by discriminate.
  apply obj_get_set_eq.
Qed.

Lemma query_fields (args : JsVal) :
  obj_get "fields" (getLastDoc_query args) = Some (JArr [JStr "name"]).
Proof. rewrite getLastDoc_query_stages. apply obj_get_set_eq. Qed.

Lemma first_request_getLastDoc (to_number_gt0 : string -> bool) (doctype : string)
      (args : JsVal) :
  first_request (getLastDoc to_number_gt0 doctype args) =
  first_request (getDocList doctype (JObj (getLastDoc_query args))).
Proof.
  unfold getLastDoc, getDocList, async.
  destruct (getDocList_params (JObj (getLastDoc_query args))); reflexivity.
Qed.

(** X14. Whatever arguments the caller gives, the list request of
    [getLastDoc] asks for one row and the [name] column only: its [limit]
    is 1 and its [fields] is the JSON text of [["name"]]. *)
Theorem last_doc_list_request :
  forall (to_number_gt0 : string -> bool) (doctype : string) (args : JsVal)
         (req : AxiosRequest),
    first_request (getLastDoc to_number_gt0 doctype args) = Some req ->
    method req = GET /\
    url req = "/api/resource/" ++ doctype /\
    body req = None /\
    exists sent : Obj,
      params req = Some sent /\
      obj_get "limit" sent = Some (JNum 1) /\
      obj_get "fields" sent = Some (JStr (json_text (JArr [JStr "name"]))).
Proof.
  intros to_number_gt0 doctype args req Hreq.
  rewrite first_request_getLastDoc in Hreq.
  destruct (getDocList_sent _ _ _ Hreq) as [s ->].
  repeat split. eexists. split; [reflexivity|].
  simpl. rewrite query_limit, query_fields. split; reflexivity.
Qed.

Lemma last_doc_list_request_witness :
  let args := JObj [("limit", JNum 50); ("fields", JArr [JStr "*"])] in
  let req := {| method := GET; url := "/api/resource/Task";
                params := Some [ ("fields", JStr (json_text (JArr [JStr "name"])));
                                 ("filters", JUndefined);
                                 ("or_filters", JUndefined);
                                 ("order_by", JStr "creation desc");
                                 ("group_by", JUndefined);
                                 ("limit", JNum 1);
                                 ("limit_start", JUndefined);
                                 ("as_dict", JBool true) ];
                body := None |} in
  first_request (getLastDoc simple_gt0 "Task" args) = Some req /\
  exists sent : Obj,
    params req = Some sent /\
    obj_get "limit" sent = Some (JNum 1) /\
    obj_get "fields" sent = Some (JStr (json_text (JArr [JStr "name"]))).
Proof.
  intros args req. split; [reflexivity|].
  exact (proj2 (proj2 (proj2 (last_doc_list_request simple_gt0 "Task" args req eq_refl)))).
Defined.

(** X15. When the caller gives no [orderBy] (no arguments at all, or a
    well-formed object without that property), [getLastDoc] always makes
    its list request, sorted by [creation desc]. *)
Theorem last_doc_default_order :
  forall (to_number_gt0 : string -> bool) (doctype : string) (args : JsVal),
    truthy args = false \/
    (exists given, args = JObj given /\ well_formed given /\
                   obj_get "orderBy" given = None) ->
    exists sent : Obj,
      first_request (getLastDoc to_number_gt0 doctype args) =
        Some {| method := GET; url := "/api/resource/" ++ doctype;
                params := Some sent; body := None |} /\
      obj_get "order_by" sent = Some (JStr "creation desc").
Proof.
  intros to_number_gt0 doctype args Hargs.
  assert (Horder : obj_get "orderBy" (getLastDoc_query args) =
                   Some (JObj [("field", JStr "creation"); ("order", JStr "desc")])).
  { rewrite getLastDoc_query_stages, !obj_get_set_ne by discriminate.
    destruct Hargs as [Hfalsy|(given & -> & Hwf & Hnone)].
    - rewrite Hfalsy. reflexivity.
    - simpl truthy. cbv iota. rewrite (obj_get_spread _ _ _ Hwf), Hnone. reflexivity. }
  rewrite first_request_getLastDoc.
  eexists. split.
  - unfold getDocList, getDocList_params. simpl. rewrite Horder. simpl. reflexivity.
  - reflexivity.
Qed.

Lemma last_doc_default_order_witness :
  let given := [("filters", JArr [JArr [JStr "status"; JStr "="; JStr "Open"]])] in
  (well_formed given /\ obj_get "orderBy" given = None) /\
  exists sent : Obj,
    first_request (getLastDoc simple_gt0 "Task" (JObj given)) =
      Some {| method := GET; url := "/api/resource/Task";
              params := Some sent; body := None |} /\
    obj_get "order_by" sent = Some (JStr "creation desc").
Proof.
  intros given.
  assert (Hwf : well_formed given).
  { unfold well_formed. simpl. constructor; [simpl; tauto|constructor]. }
  split; [split; [exact Hwf|reflexivity]|].
  apply (last_doc_default_order simple_gt0 "Task" (JObj given)).
  right. exists given. split; [reflexivity|]. split; [exact Hwf|reflexivity].
Defined.

(** X16. When the list request of [getLastDoc] is rejected, [getLastDoc]
    rejects with the same error and makes no second request. *)
Theorem last_doc_propagates_rejection :
  forall (to_number_gt0 : string -> bool) (doctype : string) (args : JsVal)
         (W : Type) (axios : AxiosRequest -> W -> AxiosResult * W) (w w1 : W)
         (calls : list AxiosRequest) (e : Thrown),
    run axios (getDocList doctype (JObj (getLastDoc_query args))) w
      = (Rejects e, calls, w1) ->
    run axios (getLastDoc to_number_gt0 doctype args) w = (Rejects e, calls, w1).
Proof.
  intros to_number_gt0 doctype args W axios w w1 calls e Hlist.
  unfold getLastDoc. now rewrite run_await, Hlist.
Qed.

Lemma last_doc_propagates_rejection_witness :
  let listed := {| method := GET; url := "/api/resource/Task";
                   params := Some [ ("fields", JStr (json_text (JArr [JStr "name"])));
                                    ("filters", JUndefined);
                                    ("or_filters", JUndefined);
                                    ("order_by", JStr "creation desc");
                                    ("group_by", JUndefined);
                                    ("limit", JNum 1);
                                    ("limit_start", JUndefined);
                                    ("as_dict", JBool true) ];
                   body := None |} in
  let server := first_then (Failed (Some not_found)) (Fulfilled (ok (JObj [("data", task)]))) in
  let thrown := ErrorObject [ ("exc_type", JStr "DoesNotExistError");
                              ("httpStatus", JNum 404);
                              ("httpStatusText", JStr "NOT FOUND");
                              ("message", JStr "There was an error while fetching the documents.");
                              ("exception", JStr "DoesNotExistError") ] in
  run server (getDocList "Task" (JObj (getLastDoc_query JUndefined))) 0
    = (Rejects thrown, [listed], 1) /\
  run server (getLastDoc simple_gt0 "Task" JUndefined) 0 = (Rejects thrown, [listed], 1).
Proof.
  intros listed server thrown. split; [reflexivity|].
  exact (last_doc_propagates_rejection simple_gt0 "Task" JUndefined nat server 0 1
           [listed] thrown eq_refl).
Defined.

(** X17. [getLastDoc] only reads: whatever the arguments and the server,
    it makes at most two requests and each of them is a [GET]. *)
Theorem last_doc_only_gets :
  forall (to_number_gt0 : string -> bool) (doctype : string) (args : JsVal)
         (W : Type) (axios : AxiosRequest -> W -> AxiosResult * W) (w : W),
    (List.length (calls_made (run axios (getLastDoc to_number_gt0 doctype args) w)) <= 2)%nat /\
    Forall (fun req => method req = GET)
           (calls_made (run axios (getLastDoc to_number_gt0 doctype args) w)).
Proof.
  intros to_number_gt0 doctype args W axios w.
  assert (Hone : forall (c : Call) (w0 : W), verb c = GET ->
            (List.length (calls_made (run axios (invoke c) w0)) <= 1)%nat /\
            Forall (fun req => method req = GET) (calls_made (run axios (invoke c) w0))).
  { intros c w0 Hverb.
    destruct (run_invoke axios c w0) as [Hrun|(req & o & _ & Hm & Hrun)];
      rewrite Hrun; unfold calls_made; simpl.
    - split; [lia|constructor].
    - split; [lia|]. constructor; [congruence|constructor]. }
  unfold getLastDoc. rewrite run_await.
  unfold calls_made in *.
  pose proof (Hone (CallGetDocList doctype (JObj (getLastDoc_query args))) w eq_refl)
    as [Hlen Hget].
  simpl invoke in Hlen, Hget.
  destruct (run axios (getDocList doctype (JObj (getLastDoc_query args))) w)
    as [[[rows|e] calls] w1]; simpl in Hlen, Hget.
  - unfold getLastDoc_found, async.
    destruct (len <- get_prop rows "length" ;; gt_zero to_number_gt0 len) as [[|]|].
    + destruct (first <- get_prop rows "0" ;; get_prop first "name") as [name|].
      * pose proof (Hone (CallGetDoc doctype name) w1 eq_refl) as [Hlen2 Hget2].
        simpl invoke in Hlen2, Hget2.
        destruct (run axios (getDoc doctype name) w1) as [[o calls'] w2].
        simpl in *. rewrite length_app. split; [lia|].
        apply Forall_app. now split.
      * simpl. rewrite app_nil_r. split; [lia|exact Hget].
    + simpl. rewrite app_nil_r. split; [lia|exact Hget].
    + simpl. rewrite app_nil_r. split; [lia|exact Hget].
  - simpl. split; [lia|exact Hget].
Qed.

(** X18. When the first row of the list has no [name], [getLastDoc]
    still makes its second request, for the document path of the doctype
    with an empty last segment. *)
Theorem last_doc_row_without_name :
  forall (to_number_gt0 : string -> bool) (doctype : string) (args : JsVal)
         (W : Type) (axios : AxiosRequest -> W -> AxiosResult * W) (w w1 : W)
         (calls : list AxiosRequest) (first : JsVal) (rest : list JsVal),
    run axios (getDocList doctype (JObj (getLastDoc_query args))) w
      = (Resolves (JArr (first :: rest)), calls, w1) ->
    get_prop first "name" = Normal JUndefined ->
    calls_made (run axios (getLastDoc to_number_gt0 doctype args) w) =
    (calls ++ [ {| method := GET; url := "/api/resource/" ++ doctype ++ "/";
                   params := None; body := None |} ])%list.
Proof.
  intros to_number_gt0 doctype args W axios w w1 calls first rest Hlist Hname.
  unfold getLastDoc. rewrite run_await, Hlist.
  rewrite (getLastDoc_found_first _ _ _ _ _ Hname).
  destruct (run_invoke axios (CallGetDoc doctype JUndefined) w1)
    as [Hrun|(req & o & Hreq & _ & Hrun)]; simpl invoke in *.
  - exfalso. unfold getDoc in Hrun. simpl in Hrun.
    match type of Hrun with
    | context [axios ?r w1] => destruct (axios r w1) as [a w2]
    end.
    rewrite run_then_catch in Hrun. discriminate.
  - rewrite Hrun. simpl. inversion Hreq; subst. reflexivity.
Qed.

Lemma last_doc_row_without_name_witness :
  let listed := {| method := GET; url := "/api/resource/Task";
                   params := Some [ ("fields", JStr (json_text (JArr [JStr "name"])));
                                    ("filters", JUndefined);
                                    ("or_filters", JUndefined);
                                    ("order_by", JStr "creation desc");
                                    ("group_by", JUndefined);
                                    ("limit", JNum 1);
                                    ("limit_start", JUndefined);
                                    ("as_dict", JBool true) ];
                   body := None |} in
  let row := JObj [("subject", JStr "X")] in
  let server := first_then (Fulfilled (ok (JObj [("data", JArr [row])])))
                           (Failed (Some not_found)) in
  (run server (getDocList "Task" (JObj (getLastDoc_query JUndefined))) 0
     = (Resolves (JArr [row]), [listed], 1) /\
   get_prop row "name" = Normal JUndefined) /\
  calls_made (run server (getLastDoc simple_gt0 "Task" JUndefined) 0) =
    [ listed;
      {| method := GET; url := "/api/resource/Task/"; params := None; body := None |} ].
Proof.
  intros listed row server. split; [split; reflexivity|].
  exact (last_doc_row_without_name simple_gt0 "Task" JUndefined nat server 0 1
           [listed] row [] eq_refl eq_refl).
Defined.

(** X19. When the list request is fulfilled but what it resolves to cannot
    be read as a list with a first row (it is [undefined] or [null]
    because the body has no [data], or its first row is [null] or
    [undefined]), [getLastDoc] rejects with a [TypeError] and makes no
    second request. *)
Theorem last_doc_unreadable_list :
  forall (to_number_gt0 : string -> bool) (doctype : string) (args : JsVal)
         (W : Type) (axios : AxiosRequest -> W -> AxiosResult * W) (w w1 : W)
         (calls : list AxiosRequest) (rows : JsVal),
    run axios (getDocList doctype (JObj (getLastDoc_query args))) w
      = (Resolves rows, calls, w1) ->
    nullish rows = true \/
    (exists first rest, rows = JArr (first :: rest) /\ nullish first = true) ->
    run axios (getLastDoc to_number_gt0 doctype args) w = (Rejects TypeError, calls, w1).
Proof.
  intros to_number_gt0 doctype args W axios w w1 calls rows Hlist Hbad.
  unfold getLastDoc. rewrite run_await, Hlist.
  assert (Hfound : getLastDoc_found to_number_gt0 doctype rows = Rejected TypeError).
  { destruct Hbad as [Hnull|(first & rest & -> & Hnull)].
    - destruct rows; try discriminate; reflexivity.
    - unfold getLastDoc_found, async.
      change (get_prop (JArr (first :: rest)) "length")
        with (Normal (A := JsVal) (JNum (Z.of_nat (S (List.length rest))))).
      change (get_prop (JArr (first :: rest)) "0") with (Normal first).
      cbn [bind gt_zero].
      replace (0 <? Z.of_nat (S (List.length rest)))%Z with true
        by (symmetry; apply Z.ltb_lt; lia).
      destruct first; try discriminate; reflexivity. }
  rewrite Hfound. simpl. now rewrite app_nil_r.
Qed.

Lemma last_doc_unreadable_list_witness :
  let listed := {| method := GET; url := "/api/resource/Task";
                   params := Some [ ("fields", JStr (json_text (JArr [JStr "name"])));
                                    ("filters", JUndefined);
                                    ("or_filters", JUndefined);
                                    ("order_by", JStr "creation desc");
                                    ("group_by", JUndefined);
                                    ("limit", JNum 1);
                                    ("limit_start", JUndefined);
                                    ("as_dict", JBool true) ];
                   body := None |} in
  let server := always (Fulfilled (ok (JObj [("message", JStr "ok")]))) in
  (run server (getDocList "Task" (JObj (getLastDoc_query JUndefined))) tt
     = (Resolves JUndefined, [listed], tt) /\
   nullish JUndefined = true) /\
  run server (getLastDoc simple_gt0 "Task" JUndefined) tt = (Rejects TypeError, [listed], tt).
Proof.
  intros listed server. split; [split; reflexivity|].
  exact (last_doc_unreadable_list simple_gt0 "Task" JUndefined unit server tt tt
           [listed] JUndefined eq_refl (or_introl eq_refl)).
Defined.

(** X20. When the list request succeeds and the request for the document
    fails with an error response, [getLastDoc] rejects with the error
    object of [getDoc]: the status of the second response and the message
    of fetching one document; both requests were made. *)
Theorem last_doc_second_failure :
  forall (to_number_gt0 : string -> bool) (doctype name : string) (args : JsVal)
         (W : Type) (axios : AxiosRequest -> W -> AxiosResult * W) (w w1 w2 : W)
         (calls : list AxiosRequest) (first : JsVal) (rest : list JsVal)
         (r : AxiosResponse),
    let fetched := {| method := GET; url := "/api/resource/" ++ doctype ++ "/" ++ name;
                      params := None; body := None |} in
    run axios (getDocList doctype (JObj (getLastDoc_query args))) w
      = (Resolves (JArr (first :: rest)), calls, w1) ->
    get_prop first "name" = Normal (JStr name) ->
    axios fetched w1 = (Failed (Some r), w2) ->
    nullish (data r) = false ->
    exists E : Obj,
      run axios (getLastDoc to_number_gt0 doctype args) w
        = (Rejects (ErrorObject E), (calls ++ [fetched])%list, w2) /\
      obj_get "httpStatus" E = Some (JNum (status r)) /\
      obj_get "message" E = Some (JStr "There was an error while fetching the document.").
Proof.
  intros to_number_gt0 doctype name args W axios w w1 w2 calls first rest r fetched
         Hlist Hname Hax Hd.
  assert (Hreq : first_request (invoke (CallGetDoc doctype (JStr name))) = Some fetched)
    by reflexivity.
  pose proof (invoke_rejects _ _ _ _ _ _ Hreq Hax) as Hrun.
  rewrite (error_object_built _ _ Hd) in Hrun. simpl invoke in Hrun.
  eexists. split.
  - unfold getLastDoc. rewrite run_await, Hlist.
    rewrite (getLastDoc_found_first _ _ _ _ _ Hname), Hrun. reflexivity.
  - split.
    + rewrite !obj_get_set_ne by discriminate. apply obj_get_set_eq.
    + rewrite obj_get_set_ne by discriminate. apply obj_get_set_eq.
Qed.

Lemma last_doc_second_failure_witness :
  let listed := {| method := GET; url := "/api/resource/Task";
                   params := Some [ ("fields", JStr (json_text (JArr [JStr "name"])));
                                    ("filters", JUndefined);
                                    ("or_filters", JUndefined);
                                    ("order_by", JStr "creation desc");
                                    ("group_by", JUndefined);
                                    ("limit", JNum 1);
                                    ("limit_start", JUndefined);
                                    ("as_dict", JBool true) ];
                   body := None |} in
  let fetched := {| method := GET; url := "/api/resource/Task/TASK-0007";
                    params := None; body := None |} in
  let row := JObj [("name", JStr "TASK-0007")] in
  let server := first_then (Fulfilled (ok (JObj [("data", JArr [row])])))
                           (Failed (Some not_found)) in
  (run server (getDocList "Task" (JObj (getLastDoc_query JUndefined))) 0
     = (Resolves (JArr [row]), [listed], 1) /\
   get_prop row "name" = Normal (JStr "TASK-0007") /\
   server fetched 1 = (Failed (Some not_found), 2) /\
   nullish (data not_found) = false) /\
  exists E : Obj,
    run server (getLastDoc simple_gt0 "Task" JUndefined) 0
      = (Rejects (ErrorObject E), [listed; fetched], 2) /\
    obj_get "httpStatus" E = Some (JNum 404) /\
    obj_get "message" E = Some (JStr "There was an error while fetching the document.").
Proof.
  intros listed fetched row server. split; [repeat split|].
  exact (last_doc_second_failure simple_gt0 "Task" "TASK-0007" JUndefined nat server
           0 1 2 [listed] row [] not_found eq_refl eq_refl eq_refl eq_refl).
Defined.

(** X21. The default of [getDoc] covers an omitted name only: with the
    name [null] the method requests the path ending in the segment [null],
    which is not the path with an empty last segment. *)
Theorem get_doc_null_name :
  forall (doctype : string),
    first_request (getDoc doctype JNull) =
      Some {| method := GET; url := "/api/resource/" ++ doctype ++ "/null";
              params := None; body := None |} /\
    first_request (getDoc doctype JNull) <> first_request (getDoc doctype JUndefined).
Proof.
  intros doctype.
  assert (Hnull : first_request (getDoc doctype JNull) =
            Some {| method := GET; url := "/api/resource/" ++ doctype ++ "/null";
                    params := None; body := None |}) by reflexivity.
  assert (Homitted : first_request (getDoc doctype JUndefined) =
            Some {| method := GET; url := "/api/resource/" ++ doctype ++ "/";
                    params := None; body := None |}) by reflexivity.
  split; [exact Hnull|].
  rewrite Hnull, Homitted. intros H. injection H as Hurl.
  apply append_cancel_l in Hurl. discriminate.
Qed.

(** *** An error response without a readable body *)

(** C1, as first stated for every error response, fails: answered with
    status 500 and the body [null], [getDoc] makes its request and rejects
    with a [TypeError], not with an error object carrying [httpStatus],
    [message] and [exception]. *)
Lemma error_normalization_counterexample :
  first_request (invoke (CallGetDoc "Task" (JStr "TASK-0001"))) =
    Some {| method := GET; url := "/api/resource/Task/TASK-0001";
            params := None; body := None |} /\
  always (Failed (Some {| data := JNull; status := 500;
                          statusText := "INTERNAL SERVER ERROR" |}))
         {| method := GET; url := "/api/resource/Task/TASK-0001";
            params := None; body := None |} tt
    = (Failed (Some {| data := JNull; status := 500;
                       statusText := "INTERNAL SERVER ERROR" |}), tt) /\
  run (always (Failed (Some {| data := JNull; status := 500;
                               statusText := "INTERNAL SERVER ERROR" |})))
      (invoke (CallGetDoc "Task" (JStr "TASK-0001"))) tt
    = (Rejects TypeError,
       [ {| method := GET; url := "/api/resource/Task/TASK-0001";
            params := None; body := None |} ], tt) /\
  ~ (exists E : Obj,
       run (always (Failed (Some {| data := JNull; status := 500;
                                    statusText := "INTERNAL SERVER ERROR" |})))
           (invoke (CallGetDoc "Task" (JStr "TASK-0001"))) tt
       = (Rejects (ErrorObject E),
          [ {| method := GET; url := "/api/resource/Task/TASK-0001";
               params := None; body := None |} ], tt)).
Proof.
  split; [reflexivity|]. split; [reflexivity|]. split; [reflexivity|].
  intros [E HE]. vm_compute in HE. discriminate HE.
Qed.
